(** * Lab controller: session store, lab catalog and verification engine

    A shallow embedding of [packages/lab-controller/lab-controller.py]:
    the JSON values the controller reads and writes, the Python exceptions
    it can raise, the per-student session record and its file store,
    [LabDefinition.load], [LabVerifier.verify], the chat client and the
    agent log, the student commands [cmd_list], [cmd_start], [cmd_hint],
    [cmd_verify], [cmd_chat] and [cmd_status], the instructor commands
    [cmd_monitor], [cmd_grade], [cmd_reset] and [cmd_stats], and the
    argument dispatch of [main]. *)

From Stdlib Require Import ZArith Ascii String List Lia.
From stdpp Require Import base gmap strings list pretty sorting.
Import ListNotations.
Open Scope string_scope.
Open Scope Z_scope.
Set Warnings "-register-all".

(* ------------------------------------------------------------------ *)
(** ** JSON values and Python exceptions *)

(** A value as [json.load] returns it.  JSON numbers are modelled as
    integers; an object keeps its members in order, with the distinct keys
    [json.loads] produces. *)
Inductive json :=
| JNull
| JBool (b : bool)
| JNum (z : Z)
| JStr (s : string)
| JArr (l : list json)
| JObj (kvs : list (string * json)).

(** The messages of CPython's [json.JSONDecodeError]. *)
Inductive json_err_msg :=
| ExpectingValue
| ExtraData
| ExpectingPropertyName
| ExpectingColon
| ExpectingComma
| UnterminatedString
| InvalidControlChar
| InvalidEscape
| InvalidUnicodeEscape
| TrailingCommaObject
| TrailingCommaArray.

Definition json_err_msg_str (m : json_err_msg) : string :=
  match m with
  | ExpectingValue => "Expecting value"
  | ExtraData => "Extra data"
  | ExpectingPropertyName => "Expecting property name enclosed in double quotes"
  | ExpectingColon => "Expecting ':' delimiter"
  | ExpectingComma => "Expecting ',' delimiter"
  | UnterminatedString => "Unterminated string starting at"
  | InvalidControlChar => "Invalid control character at"
  | InvalidEscape => "Invalid \escape"
  | InvalidUnicodeEscape => "Invalid \uXXXX escape"
  | TrailingCommaObject => "Illegal trailing comma before end of object"
  | TrailingCommaArray => "Illegal trailing comma before end of array"
  end.

Record decode_error := {
  de_msg : json_err_msg;
  de_lineno : nat;
  de_colno : nat;
  de_pos : nat
}.

(** What [json.load] / [json.loads] makes of a file or of a process's
    standard output: a value, or the [JSONDecodeError] it raises. *)
Inductive parsed :=
| Parsed (v : json)
| Unparseable (e : decode_error).

(** The exceptions the modelled code can raise or catch. *)
Inductive exc :=
| JSONDecodeError (e : decode_error)
| TimeoutExpired (cmd : string) (timeout : Z)
| OSError (msg : string)
| TypeError (msg : string)
| ValueError (msg : string)
| AttributeError (msg : string)
| KeyError (msg : string)
| IndexError (msg : string).

(** [str(e)] for each exception, in CPython's formats. *)
Definition exc_str (e : exc) : string :=
  match e with
  | JSONDecodeError d =>
      json_err_msg_str (de_msg d) +:+ ": line " +:+ pretty (de_lineno d) +:+
      " column " +:+ pretty (de_colno d) +:+ " (char " +:+ pretty (de_pos d) +:+ ")"
  | TimeoutExpired cmd t =>
      "Command '" +:+ cmd +:+ "' timed out after " +:+ pretty t +:+ " seconds"
  | OSError m | TypeError m | ValueError m | AttributeError m
  | KeyError m | IndexError m => m
  end.

Definition py_type_name (v : json) : string :=
  match v with
  | JNull => "NoneType"
  | JBool _ => "bool"
  | JNum _ => "int"
  | JStr _ => "str"
  | JArr _ => "list"
  | JObj _ => "dict"
  end.

(** Python truthiness of a JSON value. *)
Definition py_truthy (v : json) : bool :=
  match v with
  | JNull => false
  | JBool b => b
  | JNum z => negb (Z.eqb z 0)
  | JStr s => negb (String.eqb s "")
  | JArr l => negb (Nat.eqb (length l) 0%nat)
  | JObj kvs => negb (Nat.eqb (length kvs) 0%nat)
  end.

(** Python truthiness of an optional string ([None] or a [str]). *)
Definition py_truthy_opt (o : option string) : bool :=
  match o with
  | None => false
  | Some s => negb (String.eqb s "")
  end.

(** [dict.get(k, default)] on a JSON object. *)
Fixpoint obj_get (kvs : list (string * json)) (k : string) (default : json) : json :=
  match kvs with
  | [] => default
  | (k', v) :: rest => if String.eqb k k' then v else obj_get rest k default
  end.

(* ------------------------------------------------------------------ *)
(** ** A state and error monad over the student record store *)

(** [STATE_DIR/<student_id>.json], as [json.load] reads it back: a record
    written by [save], or contents that do not parse. *)
Inductive stored (session : Type) :=
| Saved (s : session)
| Corrupt (e : decode_error).
Arguments Saved {session} s.
Arguments Corrupt {session} e.

Record session := {
  student_id : string;
  created_at : string;
  current_lab : option string;
  completed_labs : list string;
  attempts : gmap string Z;
  score : Z;
  lab_start_time : option string
}.

Abbreviation store := (gmap string (stored session)).

Definition M (A : Type) : Type := store -> exc + (A * store).

Definition retM {A} (a : A) : M A := fun st => inr (a, st).
Definition bindM {A B} (c : M A) (k : A -> M B) : M B :=
  fun st => match c st with
            | inl e => inl e
            | inr (a, st') => k a st'
            end.
Definition raiseM {A} (e : exc) : M A := fun _ => inl e.
Definition liftM {A} (r : exc + A) : M A :=
  match r with inl e => raiseM e | inr a => retM a end.
Definition getM : M store := fun st => inr (st, st).
Definition modifyM (f : store -> store) : M unit := fun st => inr (tt, f st).

Notation "'let!' x := c 'in' k" := (bindM c (fun x => k))
  (at level 200, x name, c at level 100, k at level 200).

(* ------------------------------------------------------------------ *)
(** ** [StudentSession] *)

(** The record [_load_or_create] builds when no file exists. *)
Definition zero_session (sid now : string) : session := {|
  student_id := sid;
  created_at := now;
  current_lab := None;
  completed_labs := [];
  attempts := ∅;
  score := 0;
  lab_start_time := None
|}.

(** [StudentSession.__init__] / [_load_or_create]: read the student's file,
    or build a zero record in memory. *)
Definition load_or_create (sid now : string) : M session :=
  let! st := getM in
  match st !! sid with
  | None => retM (zero_session sid now)
  | Some (Saved s) => retM s
  | Some (Corrupt e) => raiseM (JSONDecodeError e)
  end.

(** [save]: write the whole record to the student's file. *)
Definition save (sid : string) (s : session) : M unit :=
  modifyM (fun st => <[sid := Saved s]> st).

(** The three assignments to [self.data] in [start_lab]. *)
Definition start_lab_data (lab_id now : string) (s : session) : session := {|
  student_id := student_id s;
  created_at := created_at s;
  current_lab := Some lab_id;
  completed_labs := completed_labs s;
  attempts := <[lab_id := default 0 (attempts s !! lab_id) + 1]> (attempts s);
  score := score s;
  lab_start_time := Some now
|}.

Definition start_lab (sid lab_id now : string) (s : session) : M session :=
  let s' := start_lab_data lab_id now s in
  let! _ := save sid s' in
  retM s'.

(** The three assignments to [self.data] in [complete_lab]. *)
Definition complete_lab_data (lab_id : string) (v : Z) (s : session) : session := {|
  student_id := student_id s;
  created_at := created_at s;
  current_lab := None;
  completed_labs :=
    if in_dec string_dec lab_id (completed_labs s) then completed_labs s
    else completed_labs s ++ [lab_id];
  attempts := attempts s;
  score := score s + v;
  lab_start_time := lab_start_time s
|}.

Definition complete_lab (sid lab_id : string) (v : Z) (s : session) : M session :=
  let s' := complete_lab_data lab_id v s in
  let! _ := save sid s' in
  retM s'.

Record progress := {
  pr_student_id : string;
  pr_current_lab : option string;
  pr_completed_labs : nat;
  pr_total_score : Z;
  pr_attempts : gmap string Z
}.

Definition get_progress (s : session) : progress := {|
  pr_student_id := student_id s;
  pr_current_lab := current_lab s;
  pr_completed_labs := length (completed_labs s);
  pr_total_score := score s;
  pr_attempts := attempts s
|}.

(* ------------------------------------------------------------------ *)
(** ** [LabDefinition] *)

Record lab_definition := {
  lab_id : string;
  title : json;
  description : json;
  difficulty : json;
  objectives : json;
  hints : json;
  time_limit : json;
  verification_script : json
}.

(** The labs directory: [LABS_DIR/<lab_id>/lab.json] as [json.load] reads
    it, and the labs that have a [verify.py]. *)
Record catalog := {
  labs_dir : string;
  lab_files : gmap string parsed;
  verify_files : gset string
}.

(** [LabDefinition.__init__]: [config.get] for every field. *)
Definition lab_init (id : string) (config : json) : exc + lab_definition :=
  match config with
  | JObj kvs => inr {|
      lab_id := id;
      title := obj_get kvs "title" (JStr "Untitled Lab");
      description := obj_get kvs "description" (JStr "");
      difficulty := obj_get kvs "difficulty" (JStr "beginner");
      objectives := obj_get kvs "objectives" (JArr []);
      hints := obj_get kvs "hints" (JArr []);
      time_limit := obj_get kvs "time_limit" JNull;
      verification_script := obj_get kvs "verification_script" JNull |}
  | v => inl (AttributeError ("'" +:+ py_type_name v +:+ "' object has no attribute 'get'"))
  end.

(** [LabDefinition.load]: [inr None] is the [None] returned (after
    printing "Lab ... not found") when [lab.json] does not exist. *)
Definition lab_load (cat : catalog) (id : string) : exc + option lab_definition :=
  match lab_files cat !! id with
  | None => inr None
  | Some (Unparseable e) => inl (JSONDecodeError e)
  | Some (Parsed config) =>
      match lab_init id config with
      | inl e => inl e
      | inr lab => inr (Some lab)
      end
  end.

(** [get_verification_script]: the path of [verify.py] if it exists. *)
Definition get_verification_script (cat : catalog) (lab : lab_definition) : option string :=
  if decide (lab_id lab ∈ verify_files cat)
  then Some (labs_dir cat +:+ "/" +:+ lab_id lab +:+ "/verify.py")
  else None.

(* ------------------------------------------------------------------ *)
(** ** [LabVerifier.verify] *)

(** Keys of a Python dict built from JSON data: [True] and [False] hash
    and compare as [1] and [0]; lists and dicts are unhashable. *)
Inductive pykey :=
| KStr (s : string)
| KInt (z : Z)
| KNone.

#[global] Instance pykey_eq_dec : EqDecision pykey.
Proof. solve_decision. Defined.

Definition pykey_of (v : json) : exc + pykey :=
  match v with
  | JNull => inr KNone
  | JBool b => inr (KInt (if b then 1 else 0))
  | JNum z => inr (KInt z)
  | JStr s => inr (KStr s)
  | JArr _ | JObj _ => inl (TypeError ("unhashable type: '" +:+ py_type_name v +:+ "'"))
  end.

(** A Python dict, in insertion order. *)
Abbreviation pydict := (list (pykey * json)).

(** [d[k] = v]: an existing key keeps its place. *)
Fixpoint dict_set (d : pydict) (k : pykey) (v : json) : pydict :=
  match d with
  | [] => [(k, v)]
  | (k', v') :: rest =>
      if decide (k = k') then (k', v) :: rest else (k', v') :: dict_set rest k v
  end.

Fixpoint dict_lookup (d : pydict) (k : pykey) : option json :=
  match d with
  | [] => None
  | (k', v) :: rest => if decide (k = k') then Some v else dict_lookup rest k
  end.

(** The characters of a [str], each as a one-character [str]. *)
Definition str_chars (s : string) : list json :=
  map (fun c => JStr (String c EmptyString)) (list_ascii_of_string s).

(** [PySequence_Fast]: the items a value yields when iterated. *)
Definition py_seq (v : json) : option (list json) :=
  match v with
  | JArr l => Some l
  | JStr s => Some (str_chars s)
  | JObj kvs => Some (map (fun kv => JStr kv.1) kvs)
  | _ => None
  end.

(** [dict.update] from an iterable of key/value pairs
    ([PyDict_MergeFromSeq2]): pairs before a bad element stay applied. *)
Fixpoint update_seq (d : pydict) (i : nat) (items : list json) : option exc * pydict :=
  match items with
  | [] => (None, d)
  | it :: rest =>
      match py_seq it with
      | None =>
          (Some (TypeError ("cannot convert dictionary update sequence element #" +:+
                            pretty i +:+ " to a sequence")), d)
      | Some [k; v] =>
          match pykey_of k with
          | inl e => (Some e, d)
          | inr k' => update_seq (dict_set d k' v) (S i) rest
          end
      | Some l =>
          (Some (ValueError ("dictionary update sequence element #" +:+ pretty i +:+
                             " has length " +:+ pretty (length l) +:+ "; 2 is required")), d)
      end
  end.

(** [results.update(verify_data)]: the exception raised, if any, and the
    dict as the update left it. *)
Definition dict_update (d : pydict) (v : json) : option exc * pydict :=
  match v with
  | JObj kvs => (None, fold_left (fun d' kv => dict_set d' (KStr kv.1) kv.2) kvs d)
  | _ =>
      match py_seq v with
      | Some items => update_seq d 0 items
      | None => (Some (TypeError ("'" +:+ py_type_name v +:+ "' object is not iterable")), d)
      end
  end.

(** [results["feedback"].append(msg)]. *)
Definition append_feedback (d : pydict) (msg : string) : exc + pydict :=
  match dict_lookup d (KStr "feedback") with
  | Some (JArr l) => inr (dict_set d (KStr "feedback") (JArr (l ++ [JStr msg])))
  | Some v => inl (AttributeError ("'" +:+ py_type_name v +:+ "' object has no attribute 'append'"))
  | None => inl (KeyError "'feedback'")
  end.

Definition initial_results (lab : lab_definition) (now : string) : pydict :=
  [(KStr "lab_id", JStr (lab_id lab));
   (KStr "timestamp", JStr now);
   (KStr "objectives_met", JArr []);
   (KStr "objectives_failed", JArr []);
   (KStr "score", JNum 0);
   (KStr "feedback", JArr [])].

(** [repr] of a plain path string, and of the argument list of the
    verification process, as [TimeoutExpired] prints it. *)
Definition py_str_repr (s : string) : string := "'" +:+ s +:+ "'".
Definition verify_cmd_repr (path : string) : string :=
  "[" +:+ py_str_repr "python3" +:+ ", " +:+ py_str_repr path +:+ "]".

(** What [subprocess.run([...], capture_output=True, text=True, timeout=30)]
    does: the process exits (return code, standard output as [json.loads]
    reads it, standard error), it is killed at the timeout, or it cannot be
    started. *)
Inductive proc_outcome :=
| ProcExited (returncode : Z) (stdout : parsed) (stderr : string)
| ProcTimedOut
| ProcOSError (msg : string).

Definition verify (cat : catalog) (lab : lab_definition) (now : string)
    (o : proc_outcome) : exc + pydict :=
  let results := initial_results lab now in
  match get_verification_script cat lab with
  | None => append_feedback results "No automated verification available"
  | Some path =>
      let on_error r e := append_feedback r ("Verification error: " +:+ exc_str e) in
      match o with
      | ProcTimedOut => on_error results (TimeoutExpired (verify_cmd_repr path) 30)
      | ProcOSError m => on_error results (OSError m)
      | ProcExited rc out err =>
          if Z.eqb rc 0 then
            match out with
            | Unparseable e => on_error results (JSONDecodeError e)
            | Parsed v =>
                match dict_update results v with
                | (None, r) => inr r
                | (Some e, r) => on_error r e
                end
            end
          else append_feedback results ("Verification failed: " +:+ err)
      end
  end.

(* ------------------------------------------------------------------ *)
(** ** [StudentCLI] *)

Definition py_len (v : json) : exc + Z :=
  match v with
  | JStr s => inr (Z.of_nat (String.length s))
  | JArr l => inr (Z.of_nat (length l))
  | JObj kvs => inr (Z.of_nat (length kvs))
  | _ => inl (TypeError ("object of type '" +:+ py_type_name v +:+ "' has no len()"))
  end.

(** [seq[i]] on a list of items, negative indices counting from the end. *)
Definition py_seq_index (l : list json) (i : Z) (what : string) : exc + json :=
  let n := Z.of_nat (length l) in
  let j := if i <? 0 then i + n else i in
  match (if (0 <=? j) && (j <? n) then nth_error l (Z.to_nat j) else None) with
  | Some x => inr x
  | None => inl (IndexError (what +:+ " index out of range"))
  end.

(** [v[i]] for an [int] index. *)
Definition py_index (v : json) (i : Z) : exc + json :=
  match v with
  | JArr l => py_seq_index l i "list"
  | JStr s => py_seq_index (str_chars s) i "string"
  | JObj _ => inl (KeyError (pretty i))
  | _ => inl (TypeError ("'" +:+ py_type_name v +:+ "' object is not subscriptable"))
  end.

Definition py_iter_check (v : json) : exc + unit :=
  match py_seq v with
  | Some _ => inr tt
  | None => inl (TypeError ("'" +:+ py_type_name v +:+ "' object is not iterable"))
  end.

(** What [cmd_hint] prints. *)
Inductive hint_output :=
| NoActiveLab
| NoHintsAvailable
| ShowHint (number : Z) (text : json).

(** [cmd_hint]: [if not self.session.data["current_lab"]] treats [None] and
    the empty identifier alike. *)
Definition cmd_hint (cat : catalog) (s : session) : exc + hint_output :=
  match current_lab s with
  | None => inr NoActiveLab
  | Some id =>
      if String.eqb id "" then inr NoActiveLab else
      match lab_load cat id with
      | inl e => inl e
      | inr None => inr NoHintsAvailable
      | inr (Some lab) =>
          if negb (py_truthy (hints lab)) then inr NoHintsAvailable else
          let attempt := default 1 (attempts s !! lab_id lab) in
          match py_len (hints lab) with
          | inl e => inl e
          | inr n =>
              let hint_index := Z.min (attempt - 1) (n - 1) in
              match py_index (hints lab) hint_index with
              | inl e => inl e
              | inr h => inr (ShowHint (hint_index + 1) h)
              end
          end
      end
  end.

(** [cmd_start]: the objectives are enumerated for printing before the
    session is updated. *)
Definition cmd_start (sid : string) (cat : catalog) (id now : string) (s : session)
    : M session :=
  let! lab_opt := liftM (lab_load cat id) in
  match lab_opt with
  | None => retM s
  | Some lab =>
      let! _ := liftM (py_iter_check (objectives lab)) in
      start_lab sid id now s
  end.

Definition results_get (r : pydict) (k : string) : exc + json :=
  match dict_lookup r (KStr k) with
  | Some v => inr v
  | None => inl (KeyError ("'" +:+ k +:+ "'"))
  end.

(** [cmd_verify]: the results are printed (the objective lists iterated,
    the feedback iterated when truthy), then [results["score"] >= 70]
    decides whether [complete_lab] runs. *)
Definition cmd_verify (sid : string) (cat : catalog) (now : string) (o : proc_outcome)
    (s : session) : M session :=
  match current_lab s with
  | None => retM s
  | Some id =>
      if String.eqb id "" then retM s else
      let! lab_opt := liftM (lab_load cat id) in
      match lab_opt with
      | None => retM s
      | Some lab =>
          let! results := liftM (verify cat lab now o) in
          let! met := liftM (results_get results "objectives_met") in
          let! _ := liftM (py_iter_check met) in
          let! failed := liftM (results_get results "objectives_failed") in
          let! _ := liftM (py_iter_check failed) in
          let! sc := liftM (results_get results "score") in
          let! fb := liftM (results_get results "feedback") in
          let! _ := (if py_truthy fb then liftM (py_iter_check fb) else retM tt) in
          match sc with
          | JNum z => if 70 <=? z then complete_lab sid (lab_id lab) z s else retM s
          | JBool _ => retM s
          | v => raiseM (TypeError ("'>=' not supported between instances of '" +:+
                                    py_type_name v +:+ "' and 'int'"))
          end
      end
  end.

Definition RED_MODEL : string := "red-qwen-agent".
Definition BLUE_MODEL : string := "blue-llama-agent".

(** [cmd_status] on the session [StudentCLI.__init__] loaded; [models] is
    what [list_models] returned from the chat endpoint. *)
Definition cmd_status (s : session) (models : list string) : progress * (bool * bool) :=
  (get_progress s, (bool_decide (RED_MODEL ∈ models), bool_decide (BLUE_MODEL ∈ models))).

Definition student_status (sid now : string) (models : list string)
    : M (progress * (bool * bool)) :=
  let! s := load_or_create sid now in
  retM (cmd_status s models).

(* ------------------------------------------------------------------ *)
(** ** [OllamaClient] and [AgentController] *)

(** [str.lower] on ASCII letters; strings are byte strings, whose other
    bytes are kept. *)
Definition ascii_lower (c : ascii) : ascii :=
  let n := nat_of_ascii c in
  if (65 <=? n)%nat && (n <=? 90)%nat then ascii_of_nat (n + 32) else c.

Fixpoint py_lower (s : string) : string :=
  match s with
  | EmptyString => EmptyString
  | String c rest => String (ascii_lower c) (py_lower rest)
  end.

Definition newline : string := String (ascii_of_nat 10) EmptyString.

(** The [messages] list [chat] builds: the system prompt when it is truthy,
    then the user's message. *)
Definition chat_messages (message : string) (system : option string) : list json :=
  (match system with
   | Some sys => if String.eqb sys "" then []
                 else [JObj [("role", JStr "system"); ("content", JStr sys)]]
   | None => []
   end ++ [JObj [("role", JStr "user"); ("content", JStr message)]])%list.

(** The JSON body posted to [/api/chat]. *)
Definition chat_request (model message : string) (system : option string) : json :=
  JObj [("model", JStr model); ("messages", JArr (chat_messages message system));
        ("stream", JBool false)].

(** What posting a request to the chat endpoint yields: the reply's
    [["message"]["content"]] (a [str] in Ollama's API), or the text of the
    exception raised by [requests.post], [raise_for_status], [.json()] or
    the subscripts. *)
Inductive chat_outcome :=
| ChatReply (content : string)
| ChatFailed (err : string).

(** [OllamaClient.chat]: every exception is caught and turned into text. *)
Definition chat (endpoint : json -> chat_outcome) (model message : string)
    (system : option string) : string :=
  match endpoint (chat_request model message system) with
  | ChatReply c => c
  | ChatFailed e => "Error communicating with " +:+ model +:+ ": " +:+ e
  end.

(** The line [_log] writes, without its final newline. *)
Definition log_entry (ts tag message : string) : string :=
  "[" +:+ ts +:+ "] [" +:+ tag +:+ "] " +:+ message.

(** [_log]: append to the day's log file ([None] while it does not exist;
    mode ['a'] creates it). *)
Definition log_write (log : option string) (ts tag message : string) : option string :=
  Some (default "" log +:+ log_entry ts tag message +:+ newline).

Definition RED_SYSTEM : string := "Execute the requested reconnaissance or attack simulation.".
Definition BLUE_SYSTEM : string := "Analyze security events and provide defensive recommendations.".

(** [send_to_red_agent] and [send_to_blue_agent]; [ts1] and [ts2] are the
    two [datetime.now().isoformat()] of the two [_log] calls. *)
Definition send_to_red_agent (endpoint : json -> chat_outcome) (ts1 ts2 instruction : string)
    (log : option string) : string * option string :=
  let log1 := log_write log ts1 "RED" instruction in
  let response := chat endpoint RED_MODEL instruction (Some RED_SYSTEM) in
  (response, log_write log1 ts2 "RED_RESPONSE" response).

Definition send_to_blue_agent (endpoint : json -> chat_outcome) (ts1 ts2 instruction : string)
    (log : option string) : string * option string :=
  let log1 := log_write log ts1 "BLUE" instruction in
  let response := chat endpoint BLUE_MODEL instruction (Some BLUE_SYSTEM) in
  (response, log_write log1 ts2 "BLUE_RESPONSE" response).

(** What [GET /api/tags] yields: the body [.json()] parsed, or the text of
    the exception raised. *)
Inductive tags_outcome :=
| TagsBody (body : json)
| TagsFailed (err : string).

(** [v[k]] for a [str] key; [None] for the [KeyError] or [TypeError]. *)
Fixpoint obj_find (kvs : list (string * json)) (k : string) : option json :=
  match kvs with
  | [] => None
  | (k', v) :: rest => if String.eqb k k' then Some v else obj_find rest k
  end.

Definition json_item (v : json) (k : string) : option json :=
  match v with
  | JObj kvs => obj_find kvs k
  | _ => None
  end.

Fixpoint model_names (items : list json) : option (list json) :=
  match items with
  | [] => Some []
  | m :: rest =>
      match json_item m "name", model_names rest with
      | Some n, Some ns => Some (n :: ns)
      | _, _ => None
      end
  end.

(** [list_models]: any exception gives [[]]. *)
Definition list_models (o : tags_outcome) : list json :=
  match o with
  | TagsFailed _ => []
  | TagsBody body =>
      match json_item body "models" with
      | Some ms =>
          match py_seq ms with
          | Some items => default [] (model_names items)
          | None => []
          end
      | None => []
      end
  end.

(** [x in models] for a [str] [x]: only an equal [str] matches. *)
Definition py_contains_str (models : list json) (x : string) : bool :=
  existsb (fun m => match m with JStr s => String.eqb s x | _ => false end) models.

Definition get_agent_status (models : list json) : bool * bool * list json :=
  (py_contains_str models RED_MODEL, py_contains_str models BLUE_MODEL, models).

(** What [cmd_chat] prints after its banner. *)
Inductive chat_output :=
| UnknownAgent (agent : string)
| AgentResponse (response : string).

Definition cmd_chat (endpoint : json -> chat_outcome) (ts1 ts2 agent message : string)
    (log : option string) : chat_output * option string :=
  if String.eqb (py_lower agent) "red" then
    let (r, log') := send_to_red_agent endpoint ts1 ts2 message log in (AgentResponse r, log')
  else if String.eqb (py_lower agent) "blue" then
    let (r, log') := send_to_blue_agent endpoint ts1 ts2 message log in (AgentResponse r, log')
  else (UnknownAgent agent, log).

(* ------------------------------------------------------------------ *)
(** ** [StudentCLI.cmd_list] and [_create_example_labs] *)

Record list_entry := {
  le_done : bool;
  le_lab_id : string;
  le_title : json;
  le_difficulty : json;
  le_objectives : Z
}.

(** The entry printed for the lab directory [id]: [✓] when [id] is a
    completed lab, and [len(lab.objectives)]. *)
Definition list_entry_of (s : session) (id : string) (lab : lab_definition) : exc + list_entry :=
  match py_len (objectives lab) with
  | inl e => inl e
  | inr n => inr {|
      le_done := if in_dec string_dec id (completed_labs s) then true else false;
      le_lab_id := lab_id lab;
      le_title := title lab;
      le_difficulty := difficulty lab;
      le_objectives := n |}
  end.

Fixpoint list_labs (s : session) (cat : catalog) (ids : list string) : exc + list list_entry :=
  match ids with
  | [] => inr []
  | id :: rest =>
      match lab_load cat id with
      | inl e => inl e
      | inr None => list_labs s cat rest
      | inr (Some lab) =>
          match list_entry_of s id lab with
          | inl e => inl e
          | inr le =>
              match list_labs s cat rest with
              | inl e => inl e
              | inr l => inr (le :: l)
              end
          end
      end
  end.

(** [sorted(labs_dir.iterdir())] kept to the directories with a
    [lab.json]: paths of one directory compare as their names. *)
Definition lab_dirs (cat : catalog) : list string :=
  merge_sort String.le (map fst (map_to_list (lab_files cat))).

(** The configuration [_create_example_labs] writes, as [json.load] reads
    the [json.dumps] output back. *)
Definition example_lab_config : json :=
  JObj [("title", JStr "Basic Network Reconnaissance");
        ("description", JStr "Learn to enumerate network services using AI agents");
        ("difficulty", JStr "beginner");
        ("objectives", JArr [JStr "Identify all open ports on the target";
                             JStr "Determine the operating system";
                             JStr "Find the SSH version"]);
        ("hints", JArr [JStr "Try asking the red agent to scan for open ports";
                        JStr "Use nmap or similar tools through the agent";
                        JStr "Check common ports: 22, 80, 443"]);
        ("time_limit", JNum 3600)].

Definition create_example_labs (cat : catalog) : catalog := {|
  labs_dir := labs_dir cat;
  lab_files := <["lab-01-recon" := Parsed example_lab_config]> (lab_files cat);
  verify_files := verify_files cat
|}.

Inductive list_output :=
| CreatedExampleLab (path : string)
| LabList (entries : list list_entry).

(** [cmd_list]: without a labs directory, create the example lab and
    return without listing. *)
Definition cmd_list (labs_exists : bool) (cat : catalog) (s : session)
    : exc + (list_output * catalog) :=
  if labs_exists then
    match list_labs s cat (lab_dirs cat) with
    | inl e => inl e
    | inr l => inr (LabList l, cat)
    end
  else inr (CreatedExampleLab (labs_dir cat +:+ "/lab-01-recon"), create_example_labs cat).

(* ------------------------------------------------------------------ *)
(** ** [InstructorCLI] *)

(** [cmd_monitor]'s [lines[-10:]]. *)
Definition py_tail {A} (k : nat) (l : list A) : list A := skipn (length l - k) l.

(** The single-character line boundaries of [str.splitlines] other than
    [\r]: [\n], [\v], [\f], [\x1c], [\x1d], [\x1e]. *)
Definition single_line_break (n : nat) : bool :=
  (n =? 10)%nat || (n =? 11)%nat || (n =? 12)%nat ||
  (n =? 28)%nat || (n =? 29)%nat || (n =? 30)%nat.

(** [read_text().splitlines()] on UTF-8 text: [\r\n] is one boundary; the
    boundaries U+0085, U+2028 and U+2029 are the byte sequences
    [C2 85], [E2 80 A8] and [E2 80 A9].  [cur] is the line read so far. *)
Fixpoint splitlines_go (s cur : string) : list string :=
  match s with
  | EmptyString => if String.eqb cur "" then [] else [cur]
  | String c rest =>
      let n := nat_of_ascii c in
      if (n =? 13)%nat then
        match rest with
        | String d rest' =>
            if (nat_of_ascii d =? 10)%nat then cur :: splitlines_go rest' ""
            else cur :: splitlines_go rest ""
        | EmptyString => cur :: splitlines_go rest ""
        end
      else if single_line_break n then cur :: splitlines_go rest ""
      else if (n =? 194)%nat then
        match rest with
        | String d rest' =>
            if (nat_of_ascii d =? 133)%nat then cur :: splitlines_go rest' ""
            else splitlines_go rest (cur +:+ String c "")
        | EmptyString => splitlines_go rest (cur +:+ String c "")
        end
      else if (n =? 226)%nat then
        match rest with
        | String d1 (String d2 rest') =>
            if (nat_of_ascii d1 =? 128)%nat &&
               ((nat_of_ascii d2 =? 168)%nat || (nat_of_ascii d2 =? 169)%nat)
            then cur :: splitlines_go rest' ""
            else splitlines_go rest (cur +:+ String c "")
        | _ => splitlines_go rest (cur +:+ String c "")
        end
      else splitlines_go rest (cur +:+ String c "")
  end.

Definition splitlines (s : string) : list string := splitlines_go s "".

(** [cmd_monitor]: the progress of the student's session, and the last ten
    lines of today's log file when it exists. *)
Definition cmd_monitor (sid now : string) (log : option string)
    : M (progress * option (list string)) :=
  let! s := load_or_create sid now in
  retM (get_progress s,
        match log with
        | None => None
        | Some text => Some (py_tail 10 (splitlines text))
        end).

(** [cmd_grade]: the progress, and one line per lab of
    [progress['attempts']] with [✓] for a completed lab (the lines are
    keyed by lab; their order is not modelled). *)
Definition grade_lines (s : session) : gmap string (bool * Z) :=
  map_imap (fun L n => Some (if in_dec string_dec L (completed_labs s) then true else false, n))
           (attempts s).

Definition cmd_grade (sid now : string) : M (progress * gmap string (bool * Z)) :=
  let! s := load_or_create sid now in
  retM (get_progress s, grade_lines s).

Inductive reset_output :=
| ResetDone
| ResetCancelled.

(** [cmd_reset] with the line [input] returned: on [yes] in any case, the
    session is loaded as [StudentSession(student_id)] does, then its file
    is unlinked with [missing_ok=True]. *)
Definition cmd_reset (sid now confirm : string) : M reset_output :=
  if String.eqb (py_lower confirm) "yes" then
    let! _ := load_or_create sid now in
    let! _ := modifyM (delete sid) in
    retM ResetDone
  else retM ResetCancelled.

(** What [cmd_stats] prints: the average printed is
    [score_sum / total_students] to one decimal. *)
Inductive stats_output :=
| NoStudentData
| Stats (total_students : nat) (total_completions : nat) (score_sum : Z).

(** [json.load] of every file of [STATE_DIR.glob("*.json")], in the order
    the store lists them. *)
Fixpoint collect_sessions (l : list (stored session)) : exc + list session :=
  match l with
  | [] => inr []
  | Saved s :: rest =>
      match collect_sessions rest with
      | inl e => inl e
      | inr ss => inr (s :: ss)
      end
  | Corrupt e :: _ => inl (JSONDecodeError e)
  end.

Definition cmd_stats : M stats_output :=
  let! st := getM in
  match collect_sessions (map snd (map_to_list st)) with
  | inl e => raiseM e
  | inr [] => retM NoStudentData
  | inr ss =>
      retM (Stats (length ss) (sum_list_with (fun s => length (completed_labs s)) ss)
                  (fold_right (fun s acc => score s + acc) 0 ss))
  end.

(* ------------------------------------------------------------------ *)
(** ** [main] *)

(** [" ".join(words)]. *)
Fixpoint py_join (sep : string) (l : list string) : string :=
  match l with
  | [] => ""
  | [x] => x
  | x :: rest => x +:+ sep +:+ py_join sep rest
  end.

Inductive student_cmd :=
| SList
| SStart (lab : string)
| SVerify
| SHint
| SChat (agent message : string)
| SStatus
| SUnknown.

(** The student branch of [main]: [command] is [sys.argv[2]] and [args]
    is [sys.argv[3:]]. *)
Definition student_command (command : string) (args : list string) : student_cmd :=
  if String.eqb command "list" then SList else
  match String.eqb command "start", args with
  | true, lab :: _ => SStart lab
  | _, _ =>
      if String.eqb command "verify" then SVerify else
      if String.eqb command "hint" then SHint else
      match String.eqb command "chat", args with
      | true, agent :: w :: ws => SChat agent (py_join " " (w :: ws))
      | _, _ => if String.eqb command "status" then SStatus else SUnknown
      end
  end.

Inductive instructor_cmd :=
| IDashboard
| IMonitor (sid : string)
| IGrade (sid : string)
| IReset (sid : string)
| IStats
| IUnknown.

Definition instructor_command (command : string) (args : list string) : instructor_cmd :=
  if String.eqb command "dashboard" then IDashboard else
  match args with
  | sid :: _ =>
      if String.eqb command "monitor" then IMonitor sid else
      if String.eqb command "grade" then IGrade sid else
      if String.eqb command "reset" then IReset sid else
      if String.eqb command "stats" then IStats else IUnknown
  | [] => if String.eqb command "stats" then IStats else IUnknown
  end.

Inductive main_action :=
| MUsage
| MStudentHelp
| MStudent (c : student_cmd)
| MInstructorHelp
| MInstructor (c : instructor_cmd)
| MBadMode.

(** [main] up to the call of the chosen command: [StudentCLI()] loads the
    session of [student-01] before the arguments are checked. *)
Definition main_dispatch (argv : list string) (now : string) : M main_action :=
  match argv with
  | _ :: mode :: rest =>
      if String.eqb mode "student" then
        let! _ := load_or_create "student-01" now in
        retM (match rest with
              | [] => MStudentHelp
              | command :: args => MStudent (student_command command args)
              end)
      else if String.eqb mode "instructor" then
        retM (match rest with
              | [] => MInstructorHelp
              | command :: args => MInstructor (instructor_command command args)
              end)
      else retM MBadMode
  | _ => retM MUsage
  end.

(** One student process running [start] or [hint]: [StudentCLI()] loads
    the session, then the command runs on it. *)
Definition student_start (sid : string) (cat : catalog) (id now : string) : M session :=
  let! s := load_or_create sid now in
  cmd_start sid cat id now s.

Definition student_hint (sid : string) (cat : catalog) (now : string) : M hint_output :=
  let! s := load_or_create sid now in
  liftM (cmd_hint cat s).

(* ------------------------------------------------------------------ *)
(** ** Sample inputs *)

Definition lab1_cfg : json :=
  JObj [("title", JStr "Basic Network Reconnaissance");
        ("objectives", JArr [JStr "ports"; JStr "os"; JStr "ssh"]);
        ("hints", JArr [JStr "h1"; JStr "h2"; JStr "h3"])].

Definition cat1 : catalog := {|
  labs_dir := "/labs";
  lab_files := {[ "lab-01" := Parsed lab1_cfg ]};
  verify_files := {[ "lab-01" ]}
|}.

(* ------------------------------------------------------------------ *)
(** ** Properties and sample inputs used in the statements *)

(** The dict [verify] returns when only one feedback string was added. *)
Definition failure_results (lab : lab_definition) (now fb : string) : pydict :=
  [(KStr "lab_id", JStr (lab_id lab)); (KStr "timestamp", JStr now);
   (KStr "objectives_met", JArr []); (KStr "objectives_failed", JArr []);
   (KStr "score", JNum 0); (KStr "feedback", JArr [JStr fb])].

(** The path [get_verification_script] returns for a lab. *)
Definition verify_path (cat : catalog) (lab : lab_definition) : string :=
  labs_dir cat +:+ "/" +:+ lab_id lab +:+ "/verify.py".

(** A lab with a verification script, for concrete runs. *)
Definition lab1 : lab_definition := {|
  lab_id := "lab-01";
  title := JStr "Basic Network Reconnaissance";
  description := JStr "";
  difficulty := JStr "beginner";
  objectives := JArr [JStr "ports"; JStr "os"; JStr "ssh"];
  hints := JArr [JStr "h1"; JStr "h2"; JStr "h3"];
  time_limit := JNull;
  verification_script := JNull
|}.

(** One controller command on a student's in-memory session: [cmd_start]
    or [cmd_verify], for any catalog, clock and verification outcome. *)
Inductive ctl_step (sid : string) : session -> session -> Prop :=
| step_start (cat : catalog) (id now : string) (s s' : session) (st st' : store) :
    cmd_start sid cat id now s st = inr (s', st') -> ctl_step sid s s'
| step_verify (cat : catalog) (now : string) (o : proc_outcome) (s s' : session)
    (st st' : store) :
    cmd_verify sid cat now o s st = inr (s', st') -> ctl_step sid s s'.

Definition ctl_reachable (sid now0 : string) (s : session) : Prop :=
  rtc (ctl_step sid) (zero_session sid now0) s.

(** Every attempt count is at least 1, and every completed or active lab
    has an attempt count. *)
Definition session_inv (s : session) : Prop :=
  (forall L n, attempts s !! L = Some n -> 1 <= n) /\
  (forall L, In L (completed_labs s) -> is_Some (attempts s !! L)) /\
  (forall L, current_lab s = Some L -> is_Some (attempts s !! L)).

(** Attempt counts and the score only grow. *)
Definition session_grows (s s' : session) : Prop :=
  score s <= score s' /\
  (forall L n, attempts s !! L = Some n -> exists n', attempts s' !! L = Some n' /\ n <= n').

(** The result fields [cmd_verify] iterates while printing can be
    iterated: both objective lists, and the feedback when it is truthy. *)
Definition results_printable (r : pydict) : Prop :=
  (exists met, dict_lookup r (KStr "objectives_met") = Some met /\ is_Some (py_seq met)) /\
  (exists failed, dict_lookup r (KStr "objectives_failed") = Some failed /\
                  is_Some (py_seq failed)) /\
  (exists fb, dict_lookup r (KStr "feedback") = Some fb /\
              (py_truthy fb = true -> is_Some (py_seq fb))).

(** The session the student has after [start lab-01]. *)
Definition s_active : session := start_lab_data "lab-01" "t" (zero_session "s1" "t").

(** The catalog [cat1] without the verification script. *)
Definition cat0 : catalog := {|
  labs_dir := "/labs";
  lab_files := {[ "lab-01" := Parsed lab1_cfg ]};
  verify_files := ∅
|}.

Definition de0 : decode_error :=
  {| de_msg := ExpectingValue; de_lineno := 1; de_colno := 1; de_pos := 0 |}.

(** A catalog whose [lab-02/lab.json] exists but is empty. *)
Definition cat_bad : catalog := {|
  labs_dir := "/labs";
  lab_files := {[ "lab-02" := Unparseable de0 ]};
  verify_files := ∅
|}.

(** The session after four [start lab-01]. *)
Definition s_four : session :=
  start_lab_data "lab-01" "t" (start_lab_data "lab-01" "t"
    (start_lab_data "lab-01" "t" (start_lab_data "lab-01" "t" (zero_session "s1" "t")))).

(** A log file made of the lines [entries], each ended by a newline. *)
Fixpoint log_of (entries : list string) : string :=
  match entries with
  | [] => ""
  | e :: rest => e +:+ newline +:+ log_of rest
  end.

(** Text that [str.splitlines] keeps on one line: ASCII without a line
    boundary. *)
Fixpoint line_safe (s : string) : bool :=
  match s with
  | EmptyString => true
  | String c rest =>
      let n := nat_of_ascii c in
      (n <? 128)%nat && negb ((n =? 13)%nat || single_line_break n) && line_safe rest
  end.

(** [n] student processes running [start id] one after the other. *)
Fixpoint run_starts (n : nat) (sid : string) (cat : catalog) (id now : string) : M unit :=
  match n with
  | O => retM tt
  | S k =>
      let! _ := run_starts k sid cat id now in
      let! _ := student_start sid cat id now in
      retM tt
  end.

(** The hints of the example lab. *)
Definition example_hints : list json :=
  [JStr "Try asking the red agent to scan for open ports";
   JStr "Use nmap or similar tools through the agent";
   JStr "Check common ports: 22, 80, 443"].

(** The lab [LabDefinition.load] builds from the example configuration. *)
Definition example_lab : lab_definition := {|
  lab_id := "lab-01-recon";
  title := JStr "Basic Network Reconnaissance";
  description := JStr "Learn to enumerate network services using AI agents";
  difficulty := JStr "beginner";
  objectives := JArr [JStr "Identify all open ports on the target";
                      JStr "Determine the operating system";
                      JStr "Find the SSH version"];
  hints := JArr example_hints;
  time_limit := JNum 3600;
  verification_script := JNull
|}.

(** A log of one separator-free entry. *)
Definition es_w : list string := ["[2026-01-01T10:00:00] [RED] scan 10.0.0.5"].

(** Twelve log entries, more than [cmd_monitor] shows. *)
Definition es12 : list string :=
  ["[2026-01-01T10:01:00] [RED] step 1";
   "[2026-01-01T10:02:00] [RED] step 2";
   "[2026-01-01T10:03:00] [RED] step 3";
   "[2026-01-01T10:04:00] [RED] step 4";
   "[2026-01-01T10:05:00] [RED] step 5";
   "[2026-01-01T10:06:00] [RED] step 6";
   "[2026-01-01T10:07:00] [RED] step 7";
   "[2026-01-01T10:08:00] [RED] step 8";
   "[2026-01-01T10:09:00] [RED] step 9";
   "[2026-01-01T10:10:00] [RED] step 10";
   "[2026-01-01T10:11:00] [RED] step 11";
   "[2026-01-01T10:12:00] [RED] step 12"].

(** A chat endpoint that always replies with one line. *)
Definition endpoint_w (req : json) : chat_outcome := ChatReply "22/tcp open ssh".

(** A chat endpoint whose reply spans two lines. *)
Definition endpoint_lines (req : json) : chat_outcome :=
  ChatReply ("22/tcp open" +:+ newline +:+ "80/tcp open").

(** A store holding the record of [s_active]. *)
Definition st_w : store := {[ "s1" := Saved s_active ]}.

(** A store whose only record does not parse. *)
Definition st_bad : store := {[ "s1" := Corrupt de0 ]}.

(** A verification script that exits 0 and reports a score of 80. *)
Definition verify_ok_w : proc_outcome := ProcExited 0 (Parsed (JObj [("score", JNum 80)])) "".

(** The result dict of a verification script that printed only a score. *)
Definition results_w (z : Z) : pydict :=
  [(KStr "lab_id", JStr "lab-01"); (KStr "timestamp", JStr "t");
   (KStr "objectives_met", JArr []); (KStr "objectives_failed", JArr []);
   (KStr "score", JNum z); (KStr "feedback", JArr [])].

(** A script that exits 0 with score 90 and a number as [objectives_met]. *)
Definition verify_unprintable_w : proc_outcome :=
  ProcExited 0 (Parsed (JObj [("score", JNum 90); ("objectives_met", JNum 5)])) "".

Definition results_unprintable_w : pydict :=
  [(KStr "lab_id", JStr "lab-01"); (KStr "timestamp", JStr "t");
   (KStr "objectives_met", JNum 5); (KStr "objectives_failed", JArr []);
   (KStr "score", JNum 90); (KStr "feedback", JArr [])].

(** The session after [start lab-01] and a passing [verify]. *)
Definition s_done : session := complete_lab_data "lab-01" 80 s_active.

(** A store whose [student-01] record does not parse. *)
Definition st_bad01 : store := {[ "student-01" := Corrupt de0 ]}.

(** A [/api/tags] body with one entry that has no [name]. *)
Definition tags_w : json :=
  JObj [("models", JArr [JObj [("name", JStr RED_MODEL)]; JObj [("model", JStr BLUE_MODEL)]])].

(** A store with two students. *)
Definition st_two : store := {[ "s1" := Saved s_done; "s2" := Saved s_active ]}.

(** A labs directory with three labs, given out of order. *)
Definition lab_cfg_w (t d : string) : json :=
  JObj [("title", JStr t); ("difficulty", JStr d); ("objectives", JArr [JStr "o1"; JStr "o2"])].

Definition cat3 : catalog := {|
  labs_dir := "/labs";
  lab_files := {[ "lab-03" := Parsed (lab_cfg_w "Incident Response" "advanced");
                  "lab-01" := Parsed lab1_cfg;
                  "lab-02" := Parsed (lab_cfg_w "Log Analysis" "intermediate") ]};
  verify_files := {[ "lab-01" ]}
|}.

(* ------------------------------------------------------------------ *)
(** ** Helper lemmas *)

Example cmd_hint_third_attempt :
  cmd_hint cat1 (start_lab_data "lab-01" "t" (start_lab_data "lab-01" "t"
    (start_lab_data "lab-01" "t" (start_lab_data "lab-01" "t" (zero_session "s1" "t")))))
  = inr (ShowHint 3 (JStr "h3")).
Proof. vm_compute. reflexivity. Qed.

Lemma lab_load_id cat id lab :
  lab_load cat id = inr (Some lab) -> lab_id lab = id.
Proof.
  unfold lab_load. destruct (lab_files cat !! id) as [[cfg|e]|]; try discriminate.
  destruct cfg; simpl; try discriminate.
  intros H. injection H as <-. reflexivity.
Qed.

Lemma py_seq_index_in_range (l : list json) (i : Z) (w : string) :
  0 <= i < Z.of_nat (length l) ->
  exists x, nth_error l (Z.to_nat i) = Some x /\ py_seq_index l i w = inr x.
Proof.
  intros Hi. unfold py_seq_index.
  destruct (nth_error l (Z.to_nat i)) as [x|] eqn:Hx.
  - exists x. split; [reflexivity|].
    replace (i <? 0) with false by lia.
    replace ((0 <=? i) && (i <? Z.of_nat (length l))) with true by lia.
    rewrite Hx. reflexivity.
  - apply nth_error_None in Hx. lia.
Qed.

Lemma string_app_assoc (a b c : string) : (a +:+ b) +:+ c = a +:+ (b +:+ c).
Proof.
  induction a as [|x a IH]; [reflexivity|].
  change (String x (a +:+ b) +:+ c = String x (a +:+ (b +:+ c))). rewrite <- IH. reflexivity.
Qed.

Lemma string_eqb_empty_false (L : string) : L <> "" -> String.eqb L "" = false.
Proof. intros H. apply String.eqb_neq. exact H. Qed.

Lemma dict_lookup_dict_set (d : pydict) (k k' : pykey) (v : json) :
  dict_lookup (dict_set d k v) k' = if decide (k' = k) then Some v else dict_lookup d k'.
Proof.
  induction d as [|[k0 v0] d IH]; simpl.
  - destruct (decide (k' = k)); reflexivity.
  - destruct (decide (k = k0)) as [->|Hne]; simpl.
    + destruct (decide (k' = k0)); reflexivity.
    + rewrite IH. destruct (decide (k' = k0)) as [->|]; destruct (decide (k0 = k)); congruence.
Qed.

Lemma obj_get_app (l1 l2 : list (string * json)) (x : string) (w : json) :
  obj_get (l1 ++ l2) x w = obj_get l1 x (obj_get l2 x w).
Proof.
  induction l1 as [|[k v] l1 IH]; simpl; [reflexivity|].
  destruct (String.eqb x k); [reflexivity|exact IH].
Qed.

(** Merging a JSON object into a dict: a string key ends up with the
    object's last binding for it. *)
Lemma dict_lookup_merge_obj (kvs : list (string * json)) (d : pydict) (x : string) (w : json) :
  dict_lookup d (KStr x) = Some w ->
  dict_lookup (fold_left (fun d' kv => dict_set d' (KStr kv.1) kv.2) kvs d) (KStr x) =
  Some (obj_get (rev kvs) x w).
Proof.
  revert d w. induction kvs as [|[k v] kvs IH]; intros d w Hd; simpl; [exact Hd|].
  rewrite obj_get_app. simpl.
  apply IH. rewrite dict_lookup_dict_set.
  destruct (decide (KStr x = KStr k)) as [Heq|Hne];
  destruct (String.eqb x k) eqn:E.
  - reflexivity.
  - apply String.eqb_neq in E. congruence.
  - apply String.eqb_eq in E. subst. contradiction.
  - exact Hd.
Qed.

Lemma verify_no_script_eq (cat : catalog) (lab : lab_definition) (now : string)
    (o : proc_outcome) :
  lab_id lab ∉ verify_files cat ->
  verify cat lab now o = inr (failure_results lab now "No automated verification available").
Proof.
  intros Hno. unfold verify, get_verification_script. rewrite decide_False by exact Hno.
  reflexivity.
Qed.

Lemma verify_script_path (cat : catalog) (lab : lab_definition) :
  lab_id lab ∈ verify_files cat -> get_verification_script cat lab = Some (verify_path cat lab).
Proof.
  intros Hv. unfold get_verification_script. rewrite decide_True by exact Hv. reflexivity.
Qed.

(** Running the monad step by step. *)
Lemma bind_inr {A B} (c : M A) (k : A -> M B) (st : store) (x : B * store) :
  bindM c k st = inr x -> exists a st1, c st = inr (a, st1) /\ k a st1 = inr x.
Proof.
  unfold bindM. destruct (c st) as [e|[a st1]]; [discriminate|]. eauto.
Qed.

Lemma liftM_inr {A} (r : exc + A) (st : store) (a : A) (st1 : store) :
  liftM r st = inr (a, st1) -> r = inr a /\ st1 = st.
Proof.
  destruct r as [e|a']; unfold liftM, raiseM, retM; [discriminate|].
  intros H. injection H as -> ->. auto.
Qed.

Ltac run_lift H a Hr :=
  let st1 := fresh "st" in let Hc := fresh "Hc" in
  apply bind_inr in H as (a & st1 & Hc & H);
  apply liftM_inr in Hc as [Hr ->].

Lemma complete_lab_inr (sid L : string) (z : Z) (s : session) (st : store) (x : session * store) :
  complete_lab sid L z s st = inr x ->
  x = (complete_lab_data L z s, <[sid := Saved (complete_lab_data L z s)]> st).
Proof. intros H. injection H as <-. reflexivity. Qed.

Lemma start_lab_inr (sid L now : string) (s : session) (st : store) (x : session * store) :
  start_lab sid L now s st = inr x ->
  x = (start_lab_data L now s, <[sid := Saved (start_lab_data L now s)]> st).
Proof. intros H. injection H as <-. reflexivity. Qed.

(** [cmd_verify] either leaves the session and the store alone or runs
    [complete_lab] on the active lab with a verification score of at
    least 70. *)
Lemma cmd_verify_cases (sid : string) (cat : catalog) (now : string) (o : proc_outcome)
    (s s' : session) (st st' : store) :
  cmd_verify sid cat now o s st = inr (s', st') ->
  (s' = s /\ st' = st) \/
  (exists L lab r z, current_lab s = Some L /\ L <> "" /\
     lab_load cat L = inr (Some lab) /\ verify cat lab now o = inr r /\
     dict_lookup r (KStr "score") = Some (JNum z) /\ 70 <= z /\
     s' = complete_lab_data L z s /\ st' = <[sid := Saved s']> st).
Proof.
  unfold cmd_verify. destruct (current_lab s) as [id|] eqn:Ec.
  2: { intros H. injection H as <- <-. auto. }
  destruct (String.eqb id "") eqn:Eid.
  1: { intros H. injection H as <- <-. auto. }
  intros H. run_lift H lo Hl.
  destruct lo as [lab|]; [|injection H as <- <-; auto].
  run_lift H r Hv. run_lift H met Hm. run_lift H u1 Hm'. run_lift H failed Hf.
  run_lift H u2 Hf'. run_lift H scv Hsc. run_lift H fb Hfb0.
  apply bind_inr in H as (u & st2 & Hfb & H).
  destruct (py_truthy fb); [apply liftM_inr in Hfb as [_ ->]|injection Hfb as _ <-].
  all: destruct scv as [| |z| | |]; try discriminate;
       try (injection H as <- <-; auto).
  all: destruct (70 <=? z) eqn:Ez; [|injection H as <- <-; auto].
  all: apply complete_lab_inr in H; injection H as -> ->; right.
  all: exists id, lab, r, z; split; [reflexivity|]; split;
       [apply String.eqb_neq; exact Eid|].
  all: split; [exact Hl|]; split; [exact Hv|].
  all: split; [unfold results_get in Hsc; destruct (dict_lookup r (KStr "score"));
               [injection Hsc as ->; reflexivity|discriminate]|].
  all: rewrite (lab_load_id _ _ _ Hl); split; [lia|auto].
Qed.

Lemma cmd_start_cases (sid : string) (cat : catalog) (id now : string) (s s' : session)
    (st st' : store) :
  cmd_start sid cat id now s st = inr (s', st') ->
  (s' = s /\ st' = st) \/
  (s' = start_lab_data id now s /\ st' = <[sid := Saved s']> st).
Proof.
  unfold cmd_start. intros H. run_lift H lo Hl.
  destruct lo as [lab|]; [|injection H as <- <-; auto].
  run_lift H u Hu. apply start_lab_inr in H. injection H as -> ->. auto.
Qed.

Lemma string_app_nil_r (a : string) : a +:+ "" = a.
Proof.
  induction a as [|x a IH]; [reflexivity|].
  change (String x (a +:+ "") = String x a). rewrite IH. reflexivity.
Qed.

Lemma line_safe_app (a b : string) : line_safe (a +:+ b) = line_safe a && line_safe b.
Proof.
  induction a as [|x a IH]; [reflexivity|].
  change (line_safe (String x (a +:+ b)) = line_safe (String x a) && line_safe b).
  cbn [line_safe]. rewrite IH, andb_assoc. reflexivity.
Qed.

(** A line without boundaries followed by [\n] is read as one line. *)
Lemma splitlines_go_line (e t cur : string) :
  line_safe e = true ->
  splitlines_go (e +:+ newline +:+ t) cur = (cur +:+ e) :: splitlines_go t "".
Proof.
  revert cur. induction e as [|c e IH]; intros cur He.
  - change (splitlines_go (String (ascii_of_nat 10) t) cur = (cur +:+ "") :: splitlines_go t "").
    rewrite string_app_nil_r. reflexivity.
  - cbn [line_safe] in He.
    apply andb_prop in He as [He1 He].
    apply andb_prop in He1 as [Hlt Hsep].
    apply negb_true_iff, orb_false_iff in Hsep as [H13 Hsl].
    apply Nat.ltb_lt in Hlt.
    change (splitlines_go (String c (e +:+ newline +:+ t)) cur = (cur +:+ String c e) :: splitlines_go t "").
    cbn [splitlines_go]. rewrite H13, Hsl.
    replace (nat_of_ascii c =? 194)%nat with false by (symmetry; apply Nat.eqb_neq; lia).
    replace (nat_of_ascii c =? 226)%nat with false by (symmetry; apply Nat.eqb_neq; lia).
    rewrite IH by exact He. rewrite string_app_assoc. reflexivity.
Qed.

(** A log of separator-free entries reads back as its entries. *)
Lemma splitlines_log_of (es : list string) :
  Forall (fun e => line_safe e = true) es -> splitlines (log_of es) = es.
Proof.
  unfold splitlines. induction 1 as [|e es He Hes IH]; [reflexivity|].
  cbn [log_of]. rewrite splitlines_go_line by exact He. rewrite IH. reflexivity.
Qed.

Lemma log_of_app (es : list string) (x : string) :
  log_of (es ++ [x])%list = log_of es +:+ x +:+ newline.
Proof.
  induction es as [|e es IH]; cbn [log_of app].
  - rewrite string_app_nil_r. reflexivity.
  - rewrite IH. rewrite !string_app_assoc. reflexivity.
Qed.

Lemma log_write_log_of (log : option string) (es : list string) (ts tag m : string) :
  default "" log = log_of es ->
  log_write log ts tag m = Some (log_of (es ++ [log_entry ts tag m])%list).
Proof. intros H. unfold log_write. rewrite H, log_of_app. reflexivity. Qed.

Lemma py_tail_length {A} (k : nat) (l : list A) : length (py_tail k l) = Nat.min k (length l).
Proof. unfold py_tail. rewrite length_skipn. lia. Qed.

Lemma log_of_app_l (l1 l2 : list string) : log_of (l1 ++ l2)%list = log_of l1 +:+ log_of l2.
Proof.
  induction l1 as [|e l1 IH]; cbn [log_of app]; [reflexivity|].
  rewrite IH, !string_app_assoc. reflexivity.
Qed.

Lemma line_safe_log_entry (ts tag m : string) :
  line_safe (log_entry ts tag m) = line_safe ts && line_safe tag && line_safe m.
Proof.
  unfold log_entry. rewrite !line_safe_app.
  destruct (line_safe ts), (line_safe tag), (line_safe m); reflexivity.
Qed.

Lemma collect_sessions_corrupt (l : list (stored session)) (e : decode_error) :
  In (Corrupt e) l -> exists e', collect_sessions l = inl e'.
Proof.
  induction l as [|[s|e0] l IH]; simpl; [intros []|..].
  - intros [Hx|Hx]; [discriminate|]. destruct (IH Hx) as [e' ->]. eauto.
  - intros _. eauto.
Qed.

Lemma lab_load_none (cat : catalog) (id : string) :
  lab_load cat id = inr None -> lab_files cat !! id = None.
Proof.
  unfold lab_load. destruct (lab_files cat !! id) as [[cfg|e]|]; try discriminate; [|reflexivity].
  destruct (lab_init id cfg); discriminate.
Qed.

(** A successful listing has one entry per lab directory, in order. *)
Lemma list_labs_ids (s : session) (cat : catalog) (ids : list string) (l : list list_entry) :
  (forall id, In id ids -> is_Some (lab_files cat !! id)) ->
  list_labs s cat ids = inr l ->
  map le_lab_id l = ids /\
  Forall (fun le => le_done le = true <-> In (le_lab_id le) (completed_labs s)) l.
Proof.
  revert l. induction ids as [|id ids IH]; intros l Hin H; simpl in H.
  - injection H as <-. split; [reflexivity|constructor].
  - destruct (lab_load cat id) as [e|[lab|]] eqn:El; [discriminate| |].
    + unfold list_entry_of in H. destruct (py_len (objectives lab)) as [e|n]; [discriminate|].
      destruct (list_labs s cat ids) as [e|l'] eqn:Er; [discriminate|].
      injection H as <-. apply lab_load_id in El.
      destruct (IH l') as [Hm Hf]; [intros x Hx; apply Hin; right; exact Hx|reflexivity|].
      simpl. rewrite Hm, El. split; [reflexivity|]. constructor; [|exact Hf]. simpl.
      destruct (in_dec string_dec id (completed_labs s)) as [Hi|Hi];
        split; intros Hx; solve [reflexivity|exact Hi|discriminate|contradiction].
    + apply lab_load_none in El. destruct (Hin id (or_introl eq_refl)) as [x Hx]. congruence.
Qed.

(** The listed directories are exactly those with a [lab.json]. *)
Lemma lab_dirs_in (cat : catalog) (id : string) :
  In id (lab_dirs cat) <-> is_Some (lab_files cat !! id).
Proof.
  unfold lab_dirs. rewrite <- list_elem_of_In, (merge_sort_Permutation String.le).
  rewrite list_elem_of_fmap. split.
  - intros ([k v] & -> & Hk). apply elem_of_map_to_list in Hk. simpl. eauto.
  - intros [v Hv]. exists (id, v). split; [reflexivity|]. apply elem_of_map_to_list. exact Hv.
Qed.

Lemma lab_dirs_nodup (cat : catalog) : NoDup (lab_dirs cat).
Proof.
  unfold lab_dirs. rewrite (merge_sort_Permutation String.le).
  pose proof (NoDup_fst_map_to_list (lab_files cat)) as H. rewrite list_fmap_alt in H. exact H.
Qed.

Lemma list_labs_fails (s : session) (cat : catalog) (ids : list string) (id : string) (e : exc) :
  In id ids -> lab_load cat id = inl e -> exists e', list_labs s cat ids = inl e'.
Proof.
  induction ids as [|id0 ids IH]; [intros []|]. intros [<-|Hin] He; simpl.
  - rewrite He. eauto.
  - destruct (lab_load cat id0) as [e0|[lab|]]; [eauto| |exact (IH Hin He)].
    destruct (list_entry_of s id0 lab); [eauto|].
    destruct (IH Hin He) as [e' ->]. eauto.
Qed.

(** After [k] start processes the stored record is the [k]-fold [start_lab]. *)
Lemma run_starts_state (sid : string) (cat : catalog) (id now : string) (st : store)
    (lab : lab_definition) (k : nat) :
  st !! sid = None -> lab_load cat id = inr (Some lab) -> py_iter_check (objectives lab) = inr tt ->
  exists st', run_starts k sid cat id now st = inr (tt, st') /\
    load_or_create sid now st' = inr (Nat.iter k (start_lab_data id now) (zero_session sid now), st').
Proof.
  intros Hnone Hlab Hobj. induction k as [|k IH].
  - exists st. split; [reflexivity|]. unfold load_or_create, bindM, getM. rewrite Hnone. reflexivity.
  - destruct IH as (st' & Hr & Hl).
    set (sk := Nat.iter k (start_lab_data id now) (zero_session sid now)) in *.
    exists (<[sid := Saved (start_lab_data id now sk)]> st').
    assert (Hs : student_start sid cat id now st' =
                 inr (start_lab_data id now sk, <[sid := Saved (start_lab_data id now sk)]> st')).
    { unfold student_start. unfold bindM at 1. rewrite Hl.
      unfold cmd_start. cbv [bindM liftM retM raiseM]. rewrite Hlab, Hobj. reflexivity. }
    split.
    + change (bindM (run_starts k sid cat id now)
                (fun _ => bindM (student_start sid cat id now) (fun _ => retM tt)) st = 
              inr (tt, <[sid := Saved (start_lab_data id now sk)]> st')).
      unfold bindM at 1. rewrite Hr. unfold bindM. rewrite Hs. reflexivity.
    + unfold load_or_create, bindM, getM. rewrite lookup_insert_eq. reflexivity.
Qed.

Lemma iter_start_fields (sid id now : string) (n : nat) :
  (1 <= n)%nat ->
  let s := Nat.iter n (start_lab_data id now) (zero_session sid now) in
  current_lab s = Some id /\ attempts s !! id = Some (Z.of_nat n).
Proof.
  intros Hn. induction n as [|n IH]; [lia|]. simpl. split; [reflexivity|].
  rewrite lookup_insert_eq. f_equal.
  destruct n as [|n].
  - simpl. reflexivity.
  - destruct IH as [_ ->]; [lia|]. simpl. lia.
Qed.

Lemma example_lab_load (cat : catalog) :
  lab_load (create_example_labs cat) "lab-01-recon" = inr (Some example_lab).
Proof. unfold lab_load. simpl. rewrite lookup_insert_eq. reflexivity. Qed.

Lemma model_names_none (items : list json) (m : json) :
  In m items -> json_item m "name" = None -> model_names items = None.
Proof.
  induction items as [|m0 items IH]; [intros []|]. intros [<-|Hin] Hm; simpl.
  - rewrite Hm. reflexivity.
  - rewrite (IH Hin Hm). destruct (json_item m0 "name"); reflexivity.
Qed.

(* ------------------------------------------------------------------ *)
(** ** Claims *)

(** C1: [complete_lab(s, L, v)] saves and returns the record with [L]
    appended to the completed labs only when absent, [v] added to the score
    on every call and no active lab; two completions of [L] grow the
    completed list by at most one lab and add [v] twice. *)
Theorem complete_lab_spec (sid L : string) (v : Z) (s : session) (st : store) :
  complete_lab sid L v s st =
    inr (complete_lab_data L v s, <[sid := Saved (complete_lab_data L v s)]> st) /\
  (In L (completed_labs s) -> completed_labs (complete_lab_data L v s) = completed_labs s) /\
  (~ In L (completed_labs s) ->
     completed_labs (complete_lab_data L v s) = (completed_labs s ++ [L])%list) /\
  score (complete_lab_data L v s) = score s + v /\
  current_lab (complete_lab_data L v s) = None /\
  (let s2 := complete_lab_data L v (complete_lab_data L v s) in
   In L (completed_labs s2) /\
   (length (completed_labs s2) <= S (length (completed_labs s)))%nat /\
   score s2 = score s + v + v /\
   current_lab s2 = None).
Proof.
  split; [reflexivity|].
  split; [intros H; simpl; destruct (in_dec string_dec L (completed_labs s)); tauto|].
  split; [intros H; simpl; destruct (in_dec string_dec L (completed_labs s)); tauto|].
  split; [reflexivity|]. split; [reflexivity|].
  simpl. destruct (in_dec string_dec L (completed_labs s)) as [Hin|Hout]; simpl.
  - destruct (in_dec string_dec L (completed_labs s)); [|contradiction].
    split; [exact Hin|]. split; [lia|]. split; [lia|reflexivity].
  - destruct (in_dec string_dec L (completed_labs s ++ [L])%list) as [_|Hn].
    + rewrite length_app. simpl.
      split; [apply in_or_app; right; left; reflexivity|]. split; [lia|]. split; [lia|reflexivity].
    + exfalso. apply Hn. apply in_or_app. right. left. reflexivity.
Qed.

(** C4: with an active lab [L] (a non-empty identifier, as [cmd_hint]
    tests it) whose definition has [k >= 1] hints and attempt count
    [n >= 1], [cmd_hint] shows hint number [i + 1] where
    [i = min(n-1, k-1)] is in range; for [n > k], [i = k - 1]. *)
Theorem cmd_hint_clamp (cat : catalog) (s : session) (L : string) (lab : lab_definition)
    (hs : list json) (n : Z) :
  current_lab s = Some L -> L <> "" ->
  lab_load cat L = inr (Some lab) ->
  hints lab = JArr hs -> (1 <= length hs)%nat ->
  attempts s !! L = Some n -> 1 <= n ->
  let i := Z.min (n - 1) (Z.of_nat (length hs) - 1) in
  0 <= i < Z.of_nat (length hs) /\
  (Z.of_nat (length hs) < n -> i = Z.of_nat (length hs) - 1) /\
  exists h, nth_error hs (Z.to_nat i) = Some h /\
            cmd_hint cat s = inr (ShowHint (i + 1) h).
Proof.
  intros Hcur Hne Hload Hh Hk Hn Hn1 i.
  assert (Hi : 0 <= i < Z.of_nat (length hs)) by (subst i; lia).
  split; [exact Hi|]. split; [intros; subst i; lia|].
  destruct (py_seq_index_in_range hs i "list" Hi) as [h [Hnth Hidx]].
  exists h. split; [exact Hnth|].
  unfold cmd_hint. rewrite Hcur, (string_eqb_empty_false L Hne), Hload, Hh.
  rewrite (lab_load_id _ _ _ Hload), Hn.
  assert (Ht : py_truthy (JArr hs) = true) by (destruct hs; simpl in *; [lia|reflexivity]).
  rewrite Ht. cbn [negb default py_len py_index id]. fold i. rewrite Hidx. reflexivity.
Qed.

(** C6: for a lab without [verify.py], [verify] returns score 0, empty
    met and failed lists and the single note that no automated check
    exists; so [cmd_verify] on such a lab leaves the session and the store
    as they were. *)
Theorem verify_no_script (cat : catalog) (lab : lab_definition) (now : string)
    (o : proc_outcome) :
  lab_id lab ∉ verify_files cat ->
  verify cat lab now o =
    inr [(KStr "lab_id", JStr (lab_id lab)); (KStr "timestamp", JStr now);
         (KStr "objectives_met", JArr []); (KStr "objectives_failed", JArr []);
         (KStr "score", JNum 0);
         (KStr "feedback", JArr [JStr "No automated verification available"])] /\
  (forall sid s st, current_lab s = Some (lab_id lab) ->
     lab_load cat (lab_id lab) = inr (Some lab) ->
     cmd_verify sid cat now o s st = inr (s, st)).
Proof.
  intros Hno.
  pose proof (verify_no_script_eq cat lab now o Hno) as Hv.
  split; [exact Hv|].
  intros sid s st Hcur Hload. unfold cmd_verify. rewrite Hcur.
  destruct (String.eqb (lab_id lab) "") eqn:He; [reflexivity|].
  unfold bindM, liftM. rewrite Hload. unfold retM. rewrite Hv. reflexivity.
Qed.

(** C3: for a lab with [verify.py], a timeout, a non-zero exit and an
    unparseable standard output each give empty met and failed lists,
    score 0 and one feedback string; the three feedback strings are
    pairwise different, and the timeout one says "timed out after 30
    seconds". *)
Theorem verify_failure_feedback (cat : catalog) (lab : lab_definition) (now : string) :
  lab_id lab ∈ verify_files cat ->
  let timeout_fb := "Verification error: " +:+
                    exc_str (TimeoutExpired (verify_cmd_repr (verify_path cat lab)) 30) in
  let crash_fb err := "Verification failed: " +:+ err in
  let parse_fb e := "Verification error: " +:+ exc_str (JSONDecodeError e) in
  verify cat lab now ProcTimedOut = inr (failure_results lab now timeout_fb) /\
  (forall rc out err, rc <> 0 ->
     verify cat lab now (ProcExited rc out err) = inr (failure_results lab now (crash_fb err))) /\
  (forall e err,
     verify cat lab now (ProcExited 0 (Unparseable e) err) =
       inr (failure_results lab now (parse_fb e))) /\
  (forall err e, timeout_fb <> crash_fb err /\ timeout_fb <> parse_fb e /\
                 crash_fb err <> parse_fb e) /\
  (exists pre, timeout_fb = pre +:+ "timed out after 30 seconds").
Proof.
  intros Hv timeout_fb crash_fb parse_fb.
  pose proof (verify_script_path cat lab Hv) as Hp.
  split; [unfold verify; rewrite Hp; reflexivity|].
  split; [intros rc out err Hrc; unfold verify; rewrite Hp;
          replace (Z.eqb rc 0) with false by lia; reflexivity|].
  split; [intros e err; unfold verify; rewrite Hp; reflexivity|].
  split.
  - intros err e. subst timeout_fb crash_fb parse_fb. cbn [exc_str].
    split; [|split].
    + cbn. discriminate.
    + destruct e as [m l c p]; destruct m; cbn; discriminate.
    + cbn. discriminate.
  - exists ("Verification error: Command '" +:+ verify_cmd_repr (verify_path cat lab) +:+ "' ").
    subst timeout_fb. cbn [exc_str]. change (pretty 30) with "30".
    rewrite ?string_app_assoc. reflexivity.
Qed.

(** C7 (counterexample): a script that exits 0 and prints
    [{"score": 150}] makes [verify] return score 150, outside [0,100]. *)
Lemma verify_score_out_of_range :
  exists r, verify cat1 lab1 "t" (ProcExited 0 (Parsed (JObj [("score", JNum 150)])) "") = inr r /\
            dict_lookup r (KStr "score") = Some (JNum 150) /\ 100 < 150.
Proof. eexists. split; [reflexivity|]. split; [reflexivity|lia]. Qed.

(** C7 (amended): the score is 0 when there is no script, and when the
    script times out, cannot be started, exits non-zero or prints output
    that does not parse; when it exits 0 with a JSON object, the score is
    the object's own ["score"] member (its last binding), unchecked. *)
Theorem verify_score_source (cat : catalog) (lab : lab_definition) (now : string) :
  (forall o, lab_id lab ∉ verify_files cat ->
     exists r, verify cat lab now o = inr r /\ dict_lookup r (KStr "score") = Some (JNum 0)) /\
  (forall o, (forall v err, o <> ProcExited 0 (Parsed v) err) ->
     exists r, verify cat lab now o = inr r /\ dict_lookup r (KStr "score") = Some (JNum 0)) /\
  (lab_id lab ∈ verify_files cat -> forall kvs err,
     exists r, verify cat lab now (ProcExited 0 (Parsed (JObj kvs)) err) = inr r /\
     dict_lookup r (KStr "score") = Some (obj_get (rev kvs) "score" (JNum 0))).
Proof.
  split; [|split].
  - intros o Hno. eexists. split; [apply verify_no_script_eq; exact Hno|reflexivity].
  - intros o Ho. unfold verify. destruct (get_verification_script cat lab).
    + destruct o as [rc out err| |m].
      * destruct (Z.eqb rc 0) eqn:Erc.
        -- apply Z.eqb_eq in Erc. subst rc. destruct out as [v|e].
           ++ exfalso. exact (Ho v err eq_refl).
           ++ eexists. split; reflexivity.
        -- eexists. split; reflexivity.
      * eexists. split; reflexivity.
      * eexists. split; reflexivity.
    + eexists. split; reflexivity.
  - intros Hv kvs err. unfold verify. rewrite (verify_script_path cat lab Hv).
    cbn [Z.eqb dict_update]. eexists. split; [reflexivity|].
    apply dict_lookup_merge_obj. reflexivity.
Qed.

Lemma start_lab_data_inv (id now : string) (s : session) :
  session_inv s -> session_inv (start_lab_data id now s).
Proof.
  intros (Hpos & Hcomp & Hcur). unfold session_inv; simpl.
  split; [|split].
  - intros L n. rewrite lookup_insert. case_decide as Heq.
    + subst. intros Hn. injection Hn as <-.
      destruct (attempts s !! L) as [m|] eqn:Em; simpl; [apply Hpos in Em; lia|lia].
    + apply Hpos.
  - intros L HL. rewrite lookup_insert. case_decide; [eauto|]. apply Hcomp, HL.
  - intros L HL. injection HL as <-. rewrite lookup_insert_eq. eauto.
Qed.

Lemma complete_lab_data_inv (L : string) (z : Z) (s : session) :
  session_inv s -> current_lab s = Some L -> session_inv (complete_lab_data L z s).
Proof.
  intros (Hpos & Hcomp & Hcur) HL. unfold session_inv; simpl.
  split; [exact Hpos|split; [|discriminate]].
  intros L' HL'. destruct (in_dec string_dec L (completed_labs s)).
  - apply Hcomp, HL'.
  - apply in_app_or in HL' as [HL'|[<-|[]]]; [apply Hcomp, HL'|apply Hcur, HL].
Qed.

Lemma ctl_step_inv (sid : string) (s s' : session) :
  ctl_step sid s s' -> session_inv s -> session_inv s'.
Proof.
  intros Hstep Hinv. destruct Hstep as [cat id now s s' st st' H|cat now o s s' st st' H].
  - apply cmd_start_cases in H as [[-> _]|[-> _]]; [exact Hinv|].
    apply start_lab_data_inv, Hinv.
  - apply cmd_verify_cases in H as [[-> _]|(L & lab & r & z & HL & _ & _ & _ & _ & _ & -> & _)];
      [exact Hinv|].
    apply complete_lab_data_inv; assumption.
Qed.

Lemma ctl_step_grows (sid : string) (s s' : session) :
  ctl_step sid s s' -> session_grows s s'.
Proof.
  intros Hstep. destruct Hstep as [cat id now s s' st st' H|cat now o s s' st st' H].
  - apply cmd_start_cases in H as [[-> _]|[-> _]].
    + split; [lia|]. intros L n Hn. exists n. split; [exact Hn|lia].
    + split; [simpl; lia|]. intros L n Hn. simpl. rewrite lookup_insert. case_decide.
      * subst. rewrite Hn. simpl. eexists; split; [reflexivity|lia].
      * exists n. split; [exact Hn|lia].
  - apply cmd_verify_cases in H as [[-> _]|(L & lab & r & z & _ & _ & _ & _ & _ & Hz & -> & _)].
    + split; [lia|]. intros L n Hn. exists n. split; [exact Hn|lia].
    + split; [simpl; lia|]. intros L' n Hn. exists n. split; [exact Hn|lia].
Qed.

(** C2 (counterexample): [complete_lab] called directly on the zero
    record, for a lab never started and with a negative score, puts the
    lab in the completed list with no attempt count and lowers the score. *)
Lemma complete_lab_unstarted :
  let s0 := zero_session "s1" "t" in
  let s1 := complete_lab_data "lab-01" (-5) s0 in
  In "lab-01" (completed_labs s1) /\ attempts s1 !! "lab-01" = None /\ score s1 < score s0.
Proof. simpl. split; [left; reflexivity|]. split; [reflexivity|lia]. Qed.

(** C2 (amended): along the controller's commands ([cmd_start], and
    [cmd_verify], which calls [complete_lab] only for the active lab with
    a score of at least 70), every reachable session has attempt counts of
    at least 1 for every completed or active lab, and each further command
    keeps every attempt count and the score from decreasing. *)
Theorem ctl_reachable_inv (sid now0 : string) (s : session) :
  ctl_reachable sid now0 s ->
  session_inv s /\ (forall s', ctl_step sid s s' -> session_grows s s').
Proof.
  intros Hr. split.
  - unfold ctl_reachable in Hr.
    assert (H0 : session_inv (zero_session sid now0)).
    { unfold session_inv. simpl. split; [|split].
      - intros L n Hn. rewrite lookup_empty in Hn. discriminate.
      - intros L [].
      - discriminate. }
    induction Hr as [x|x y z Hxy Hyz IH]; [exact H0|].
    apply IH. eapply ctl_step_inv; eassumption.
  - intros s' Hs. eapply ctl_step_grows; exact Hs.
Qed.

(** C5 (counterexample): a script that exits 0 with score 90 but an
    [objectives_met] that is a number makes [cmd_verify] raise while
    printing, before the threshold test: the lab is not completed. *)
Lemma cmd_verify_pass_unprintable :
  cmd_verify "s1" cat1 "t"
    (ProcExited 0 (Parsed (JObj [("score", JNum 90); ("objectives_met", JNum 5)])) "")
    s_active ∅ = inl (TypeError "'int' object is not iterable").
Proof. vm_compute. reflexivity. Qed.

(** C5 (amended): the threshold 70 is tested by [cmd_verify] on the score
    [verify] returned.  For the active lab, a score below 70 leaves the
    session and the store unchanged; a score of at least 70, with results
    whose lists can be printed, runs [complete_lab]: the lab is recorded
    completed, the score added, the active lab cleared, and the record
    saved.  An objective list that cannot be iterated makes [cmd_verify]
    raise a [TypeError] while printing, whatever the score. *)
Theorem cmd_verify_threshold (sid : string) (cat : catalog) (now : string) (o : proc_outcome)
    (s : session) (st : store) (L : string) (lab : lab_definition) (r : pydict) :
  current_lab s = Some L -> L <> "" ->
  lab_load cat L = inr (Some lab) -> verify cat lab now o = inr r ->
  (forall z, dict_lookup r (KStr "score") = Some (JNum z) -> z < 70 ->
     forall s' st', cmd_verify sid cat now o s st = inr (s', st') -> s' = s /\ st' = st) /\
  (forall z, dict_lookup r (KStr "score") = Some (JNum z) -> 70 <= z -> results_printable r ->
     cmd_verify sid cat now o s st =
       inr (complete_lab_data L z s, <[sid := Saved (complete_lab_data L z s)]> st)) /\
  (forall met, dict_lookup r (KStr "objectives_met") = Some met -> py_seq met = None ->
     cmd_verify sid cat now o s st =
       inl (TypeError ("'" +:+ py_type_name met +:+ "' object is not iterable"))) /\
  (forall met failed sm,
     dict_lookup r (KStr "objectives_met") = Some met -> py_seq met = Some sm ->
     dict_lookup r (KStr "objectives_failed") = Some failed -> py_seq failed = None ->
     cmd_verify sid cat now o s st =
       inl (TypeError ("'" +:+ py_type_name failed +:+ "' object is not iterable"))).
Proof.
  intros Hcur Hne Hload Hv. split; [|split; [|split]].
  - intros z Hz Hlt s' st' H.
    apply cmd_verify_cases in H as [Hid|(L' & lab' & r' & z' & HL' & _ & Hl' & Hv' & Hz' & Hge & _)];
      [exact Hid|].
    rewrite Hcur in HL'. injection HL' as <-. rewrite Hload in Hl'. injection Hl' as <-.
    rewrite Hv in Hv'. injection Hv' as <-. rewrite Hz in Hz'. injection Hz' as <-. lia.
  - intros z Hz Hge ((met & Hm & [sm Hsm]) & (failed & Hf & [sf Hsf]) & (fb & Hfb & Hsfb)).
    unfold cmd_verify. rewrite Hcur, (string_eqb_empty_false L Hne).
    cbv [bindM liftM retM raiseM]. rewrite Hload. cbv beta iota. rewrite Hv. cbv beta iota.
    unfold results_get. rewrite Hm. cbv beta iota. unfold py_iter_check. rewrite Hsm.
    cbv beta iota. rewrite Hf. cbv beta iota. rewrite Hsf. cbv beta iota.
    rewrite Hz. cbv beta iota. rewrite Hfb. cbv beta iota.
    destruct (py_truthy fb) eqn:Et.
    + destruct (Hsfb eq_refl) as [sb Hsb]. rewrite Hsb.
      replace (70 <=? z) with true by lia. rewrite (lab_load_id _ _ _ Hload). reflexivity.
    + replace (70 <=? z) with true by lia. rewrite (lab_load_id _ _ _ Hload). reflexivity.
  - intros met Hm Hsm.
    unfold cmd_verify. rewrite Hcur, (string_eqb_empty_false L Hne).
    cbv [bindM liftM retM raiseM]. rewrite Hload. cbv beta iota. rewrite Hv. cbv beta iota.
    unfold results_get. rewrite Hm. cbv beta iota. unfold py_iter_check. rewrite Hsm.
    reflexivity.
  - intros met failed sm Hm Hsm Hf Hsf.
    unfold cmd_verify. rewrite Hcur, (string_eqb_empty_false L Hne).
    cbv [bindM liftM retM raiseM]. rewrite Hload. cbv beta iota. rewrite Hv. cbv beta iota.
    unfold results_get. rewrite Hm. cbv beta iota. unfold py_iter_check. rewrite Hsm.
    cbv beta iota. rewrite Hf. cbv beta iota. rewrite Hsf. reflexivity.
Qed.

Lemma cmd_verify_threshold_witness :
  cmd_verify "s1" cat1 "t" verify_ok_w s_active ∅ =
    inr (complete_lab_data "lab-01" 80 s_active,
         <[ "s1" := Saved (complete_lab_data "lab-01" 80 s_active)]> ∅) /\
  (forall s' st', cmd_verify "s1" cat1 "t" ProcTimedOut s_active ∅ = inr (s', st') ->
     s' = s_active /\ st' = ∅) /\
  cmd_verify "s1" cat1 "t" verify_unprintable_w s_active ∅ =
    inl (TypeError "'int' object is not iterable").
Proof.
  assert (Hl : lab_load cat1 "lab-01" = inr (Some lab1)) by reflexivity.
  split; [|split].
  - assert (Hv : verify cat1 lab1 "t" verify_ok_w = inr (results_w 80)) by (vm_compute; reflexivity).
    apply (proj1 (proj2 (cmd_verify_threshold "s1" cat1 "t" verify_ok_w s_active ∅ "lab-01" lab1
             (results_w 80) eq_refl ltac:(discriminate) Hl Hv)) 80).
    + reflexivity.
    + lia.
    + split; [|split].
      * eexists. split; [reflexivity|]. eexists. reflexivity.
      * eexists. split; [reflexivity|]. eexists. reflexivity.
      * eexists. split; [reflexivity|]. intros _. eexists. reflexivity.
  - assert (Hv : verify cat1 lab1 "t" ProcTimedOut =
                 inr (failure_results lab1 "t"
                        ("Verification error: Command '['python3', '/labs/lab-01/verify.py']' "
                         +:+ "timed out after 30 seconds")))
      by (vm_compute; reflexivity).
    apply (proj1 (cmd_verify_threshold "s1" cat1 "t" ProcTimedOut s_active ∅ "lab-01" lab1
             _ eq_refl ltac:(discriminate) Hl Hv) 0).
    + reflexivity.
    + lia.
  - assert (Hv : verify cat1 lab1 "t" verify_unprintable_w = inr (results_unprintable_w))
      by (vm_compute; reflexivity).
    exact (proj1 (proj2 (proj2 (cmd_verify_threshold "s1" cat1 "t" verify_unprintable_w s_active ∅
             "lab-01" lab1 _ eq_refl ltac:(discriminate) Hl Hv))) (JNum 5) eq_refl eq_refl).
Defined.

(** C8 (counterexample): for a [lab.json] that exists but does not
    parse, [load] neither returns a definition nor reports [None]: it
    raises [JSONDecodeError]. *)
Lemma lab_load_malformed_raises :
  lab_load cat_bad "lab-02" = inl (JSONDecodeError de0) /\
  exc_str (JSONDecodeError de0) = "Expecting value: line 1 column 1 (char 0)".
Proof. split; reflexivity. Qed.

(** C8 (amended): [load] reports [None] exactly when [lab.json] is
    absent; a definition it returns comes from a JSON object, with every
    field read from it or defaulted; a file that does not parse, or holds
    a value other than an object, makes [load] raise instead. *)
Theorem lab_load_outcomes (cat : catalog) (L : string) :
  (lab_load cat L = inr None <-> lab_files cat !! L = None) /\
  (forall d, lab_load cat L = inr (Some d) ->
     exists kvs, lab_files cat !! L = Some (Parsed (JObj kvs)) /\
     d = {| lab_id := L;
            title := obj_get kvs "title" (JStr "Untitled Lab");
            description := obj_get kvs "description" (JStr "");
            difficulty := obj_get kvs "difficulty" (JStr "beginner");
            objectives := obj_get kvs "objectives" (JArr []);
            hints := obj_get kvs "hints" (JArr []);
            time_limit := obj_get kvs "time_limit" JNull;
            verification_script := obj_get kvs "verification_script" JNull |}) /\
  (forall e, lab_files cat !! L = Some (Unparseable e) ->
     lab_load cat L = inl (JSONDecodeError e)) /\
  (forall v, lab_files cat !! L = Some (Parsed v) -> (forall kvs, v <> JObj kvs) ->
     exists e, lab_load cat L = inl e).
Proof.
  unfold lab_load. split; [|split; [|split]].
  - destruct (lab_files cat !! L) as [[cfg|e]|]; [|split; discriminate|split; reflexivity].
    destruct cfg; simpl; split; discriminate.
  - intros d. destruct (lab_files cat !! L) as [[cfg|e]|]; try discriminate.
    destruct cfg as [| | | | |kvs]; simpl; try discriminate.
    intros H. injection H as <-. exists kvs. split; reflexivity.
  - intros e He. rewrite He. reflexivity.
  - intros v Hv Hno. rewrite Hv.
    destruct v as [| | | | |kvs]; simpl; try (eexists; reflexivity).
    exfalso. exact (Hno kvs eq_refl).
Qed.

(** C9 (counterexample): when the student's file exists but does not
    parse, [_load_or_create] raises. *)
Lemma load_or_create_corrupt_raises :
  load_or_create "s1" "t" {[ "s1" := Corrupt de0 ]} = inl (JSONDecodeError de0).
Proof. reflexivity. Qed.

(** C9 (amended): with no file, [_load_or_create] returns the zero
    record (no active lab, no completed labs, no attempts, score 0); a
    stored record is returned as it is; a file that does not parse makes
    it raise [JSONDecodeError]. *)
Theorem load_or_create_outcomes (sid now : string) (st : store) :
  (st !! sid = None -> load_or_create sid now st = inr (zero_session sid now, st)) /\
  (current_lab (zero_session sid now) = None /\ completed_labs (zero_session sid now) = [] /\
   attempts (zero_session sid now) = ∅ /\ score (zero_session sid now) = 0) /\
  (forall s, st !! sid = Some (Saved s) -> load_or_create sid now st = inr (s, st)) /\
  (forall e, st !! sid = Some (Corrupt e) -> load_or_create sid now st = inl (JSONDecodeError e)).
Proof.
  unfold load_or_create, bindM, getM. split; [|split; [|split]].
  - intros H. rewrite H. reflexivity.
  - repeat split.
  - intros s H. rewrite H. reflexivity.
  - intros e H. rewrite H. reflexivity.
Qed.

(** C10: constructing the session ([_load_or_create]) and [cmd_status]
    never change the store, so a new student's [status] leaves no file;
    [start_lab] and [complete_lab] save the whole new record before
    returning, and [cmd_start] writes only through [start_lab]. *)
Theorem session_writes (sid now : string) (models : list string) :
  (forall st x, load_or_create sid now st = inr x -> x.2 = st) /\
  (forall st x, student_status sid now models st = inr x -> x.2 = st) /\
  (forall st, st !! sid = None ->
     student_status sid now models st = inr (cmd_status (zero_session sid now) models, st)) /\
  (forall L s st, start_lab sid L now s st =
     inr (start_lab_data L now s, <[sid := Saved (start_lab_data L now s)]> st)) /\
  (forall L z s st, complete_lab sid L z s st =
     inr (complete_lab_data L z s, <[sid := Saved (complete_lab_data L z s)]> st)) /\
  (forall cat id s st s' st', cmd_start sid cat id now s st = inr (s', st') ->
     st' = st \/ (s' = start_lab_data id now s /\ st' = <[sid := Saved s']> st)).
Proof.
  assert (Hload : forall st x, load_or_create sid now st = inr x -> x.2 = st).
  { intros st x. unfold load_or_create, bindM, getM.
    destruct (st !! sid) as [[s|e]|]; unfold retM, raiseM; try discriminate;
      intros H; injection H as <-; reflexivity. }
  split; [exact Hload|]. split.
  - intros st x H. unfold student_status in H. apply bind_inr in H as (s & st1 & H1 & H).
    apply Hload in H1. simpl in H1. subst st1. injection H as <-. reflexivity.
  - split; [intros st H; unfold student_status, load_or_create, bindM, getM; rewrite H;
            reflexivity|].
    split; [reflexivity|]. split; [reflexivity|].
    intros cat id s st s' st' H.
    apply cmd_start_cases in H as [[_ ->]|H]; [left; reflexivity|right; exact H].
Qed.

(** ** Witnesses *)

Lemma verify_failure_feedback_witness :
  (lab_id lab1 ∈ verify_files cat1) /\
  verify cat1 lab1 "t" ProcTimedOut =
    inr (failure_results lab1 "t" ("Verification error: " +:+
           exc_str (TimeoutExpired (verify_cmd_repr (verify_path cat1 lab1)) 30))).
Proof.
  assert (H : lab_id lab1 ∈ verify_files cat1) by (simpl; apply elem_of_singleton; reflexivity).
  split; [exact H|]. exact (proj1 (verify_failure_feedback cat1 lab1 "t" H)).
Defined.

Lemma cmd_hint_clamp_witness :
  exists h, cmd_hint cat1 s_four = inr (ShowHint 3 h).
Proof.
  destruct (cmd_hint_clamp cat1 s_four "lab-01" lab1 [JStr "h1"; JStr "h2"; JStr "h3"] 4)
    as (_ & _ & h & _ & H).
  - reflexivity.
  - discriminate.
  - vm_compute. reflexivity.
  - reflexivity.
  - simpl. lia.
  - vm_compute. reflexivity.
  - lia.
  - exists h. exact H.
Defined.

Lemma verify_no_script_witness :
  (lab_id lab1 ∉ verify_files cat0) /\
  verify cat0 lab1 "t" ProcTimedOut =
    inr [(KStr "lab_id", JStr "lab-01"); (KStr "timestamp", JStr "t");
         (KStr "objectives_met", JArr []); (KStr "objectives_failed", JArr []);
         (KStr "score", JNum 0);
         (KStr "feedback", JArr [JStr "No automated verification available"])].
Proof.
  assert (H : lab_id lab1 ∉ verify_files cat0) by (simpl; apply not_elem_of_empty).
  split; [exact H|]. exact (proj1 (verify_no_script cat0 lab1 "t" ProcTimedOut H)).
Defined.

Lemma ctl_reachable_inv_witness :
  ctl_reachable "s1" "t" s_active /\ session_inv s_active.
Proof.
  assert (H : ctl_reachable "s1" "t" s_active).
  { eapply rtc_l; [|apply rtc_refl].
    apply (step_start "s1" cat1 "lab-01" "t" (zero_session "s1" "t") s_active ∅
             (<[ "s1" := Saved s_active ]> ∅)).
    vm_compute. reflexivity. }
  split; [exact H|]. exact (proj1 (ctl_reachable_inv "s1" "t" s_active H)).
Defined.

(* ------------------------------------------------------------------ *)
(** ** Further properties of the controller *)

(** X1: [cmd_reset] answered [yes] in any letter case, on a student whose
    record parses or is absent, removes the record; a later load builds a
    zero record. *)
Theorem reset_confirmed (sid now confirm : string) (st : store) :
  py_lower confirm = "yes" ->
  (forall e, st !! sid <> Some (Corrupt e)) ->
  cmd_reset sid now confirm st = inr (ResetDone, delete sid st) /\
  (forall now', load_or_create sid now' (delete sid st) =
                inr (zero_session sid now', delete sid st)).
Proof.
  intros Hy Hc. unfold cmd_reset. rewrite Hy. simpl. split.
  - unfold load_or_create, bindM, getM.
    destruct (st !! sid) as [[s|e]|] eqn:E; [reflexivity| |reflexivity].
    exfalso. exact (Hc e eq_refl).
  - intros now'. unfold load_or_create, bindM, getM. rewrite lookup_delete_eq. reflexivity.
Qed.

(** X3: a confirmed reset of a student whose record does not parse
    raises the [JSONDecodeError] of [StudentSession]'s load, the step
    before [unlink]: [cmd_reset] fails with the very error of
    [load_or_create] and never reports the reset done. *)
Theorem reset_corrupt_kept (sid now confirm : string) (st : store) (e : decode_error) :
  py_lower confirm = "yes" -> st !! sid = Some (Corrupt e) ->
  load_or_create sid now st = inl (JSONDecodeError e) /\
  cmd_reset sid now confirm st = inl (JSONDecodeError e) /\
  (forall st', cmd_reset sid now confirm st <> inr (ResetDone, st')).
Proof.
  intros Hy He.
  assert (Hl : load_or_create sid now st = inl (JSONDecodeError e)).
  { unfold load_or_create, bindM, getM. rewrite He. reflexivity. }
  assert (Hr : cmd_reset sid now confirm st = inl (JSONDecodeError e)).
  { unfold cmd_reset. rewrite Hy. simpl. unfold bindM at 1. rewrite Hl. reflexivity. }
  split; [exact Hl|]. split; [exact Hr|]. intros st'. rewrite Hr. discriminate.
Qed.

(** X6: one record that does not parse makes [cmd_stats] raise. *)
Theorem stats_corrupt_fails (st : store) (k : string) (e : decode_error) :
  st !! k = Some (Corrupt e) -> exists e', cmd_stats st = inl e'.
Proof.
  intros Hk. destruct (collect_sessions_corrupt (map snd (map_to_list st)) e) as [e' He'].
  { apply in_map_iff. exists (k, Corrupt e). split; [reflexivity|].
    apply list_elem_of_In, elem_of_map_to_list. exact Hk. }
  exists e'. unfold cmd_stats, bindM, getM. rewrite He'. reflexivity.
Qed.

(** X7: [cmd_grade] has a line for exactly the labs with an attempt count,
    marked done exactly when the lab is completed. *)
Theorem grade_lines_spec (s : session) (L : string) (b : bool) (n : Z) :
  grade_lines s !! L = Some (b, n) <->
  attempts s !! L = Some n /\ (b = true <-> In L (completed_labs s)).
Proof.
  unfold grade_lines. rewrite map_lookup_imap.
  destruct (attempts s !! L) as [m|]; simpl; [|split; [discriminate|intros [[=] _]]].
  destruct (in_dec string_dec L (completed_labs s)) as [Hin|Hnin]; split.
  - intros [= <- <-]. split; [reflexivity|]. split; auto.
  - intros [[= ->] Hb]. f_equal. f_equal. destruct b; [reflexivity|]. symmetry. apply Hb, Hin.
  - intros [= <- <-]. split; [reflexivity|]. split; [discriminate|contradiction].
  - intros [[= ->] Hb]. f_equal. f_equal. destruct b; [|reflexivity]. exfalso. apply Hnin, Hb. reflexivity.
Qed.

(** The session invariant along the controller's commands. *)
Lemma reachable_session_inv (sid now0 : string) (s : session) :
  ctl_reachable sid now0 s -> session_inv s.
Proof.
  unfold ctl_reachable. intros Hr.
  assert (H0 : session_inv (zero_session sid now0)).
  { unfold session_inv. simpl. split; [|split].
    - intros L n Hn. rewrite lookup_empty in Hn. discriminate.
    - intros L [].
    - discriminate. }
  induction Hr as [x|x y z Hxy Hyz IH]; [exact H0|].
  apply IH. eapply ctl_step_inv; eassumption.
Qed.

(** X8: for a session reached by the controller's commands, every completed
    lab appears in the grade report marked done with at least one attempt. *)
Theorem grade_reachable_completed (sid now0 : string) (s : session) (L : string) :
  ctl_reachable sid now0 s -> In L (completed_labs s) ->
  exists n, grade_lines s !! L = Some (true, n) /\ 1 <= n.
Proof.
  intros Hr HL. destruct (reachable_session_inv sid now0 s Hr) as (Hpos & Hcomp & _).
  destruct (Hcomp L HL) as [n Hn]. exists n. split; [|exact (Hpos L n Hn)].
  apply grade_lines_spec. split; [exact Hn|]. split; auto.
Qed.

(** X9: [cmd_monitor] and [cmd_grade] never write the store; for a student
    with no record both report a zero record and create no file. *)
Theorem instructor_reads_only (sid now : string) (log : option string) (st : store) :
  (forall r st', cmd_monitor sid now log st = inr (r, st') -> st' = st) /\
  (forall r st', cmd_grade sid now st = inr (r, st') -> st' = st) /\
  (st !! sid = None ->
   cmd_monitor sid now log st =
     inr ((get_progress (zero_session sid now),
           match log with None => None | Some text => Some (py_tail 10 (splitlines text)) end), st) /\
   cmd_grade sid now st = inr ((get_progress (zero_session sid now), ∅), st)).
Proof.
  unfold cmd_monitor, cmd_grade, load_or_create, bindM, getM.
  split; [|split]; [intros r st' H..|intros Hn; rewrite Hn; split; reflexivity].
  all: destruct (st !! sid) as [[s|e]|]; cbv in H; try discriminate; injection H as _ <-; reflexivity.
Qed.

(** X10: on a log of separator-free entries, [cmd_monitor] shows the last
    [min 10 n] entries and leaves the store unchanged. *)
Theorem monitor_shows_last_entries (sid now : string) (es : list string) (st : store)
    (r : progress * option (list string)) (st' : store) :
  Forall (fun e => line_safe e = true) es ->
  cmd_monitor sid now (Some (log_of es)) st = inr (r, st') ->
  st' = st /\ r.2 = Some (py_tail 10 es) /\ length (py_tail 10 es) = Nat.min 10 (length es).
Proof.
  intros Hes H. unfold cmd_monitor in H. apply bind_inr in H as (s & st1 & Hl & H).
  unfold load_or_create, bindM, getM in Hl.
  assert (st1 = st) as ->.
  { destruct (st !! sid) as [[s0|e0]|]; cbv in Hl; try discriminate; injection Hl as _ <-; reflexivity. }
  injection H as <- <-. rewrite splitlines_log_of by exact Hes.
  split; [reflexivity|]. split; [reflexivity|]. apply py_tail_length.
Qed.

(** X11: [cmd_chat] routes [red] and [blue] in any letter case to the agent,
    appending exactly the instruction line and then the response line to
    the log; any other agent name leaves the log unchanged. *)
Theorem cmd_chat_log (endpoint : json -> chat_outcome) (ts1 ts2 agent message : string)
    (log : option string) (es : list string) :
  default "" log = log_of es ->
  (py_lower agent = "red" ->
   let r := chat endpoint RED_MODEL message (Some RED_SYSTEM) in
   cmd_chat endpoint ts1 ts2 agent message log =
   (AgentResponse r,
    Some (log_of (es ++ [log_entry ts1 "RED" message; log_entry ts2 "RED_RESPONSE" r])%list))) /\
  (py_lower agent = "blue" ->
   let r := chat endpoint BLUE_MODEL message (Some BLUE_SYSTEM) in
   cmd_chat endpoint ts1 ts2 agent message log =
   (AgentResponse r,
    Some (log_of (es ++ [log_entry ts1 "BLUE" message; log_entry ts2 "BLUE_RESPONSE" r])%list))) /\
  (py_lower agent <> "red" -> py_lower agent <> "blue" ->
   cmd_chat endpoint ts1 ts2 agent message log = (UnknownAgent agent, log)).
Proof.
  intros Hlog. unfold cmd_chat. split; [|split].
  - intros Hr. simpl. rewrite Hr. cbn -[log_of chat log_write].
    unfold send_to_red_agent.
    rewrite (log_write_log_of log es) by exact Hlog.
    rewrite (log_write_log_of (Some _) (es ++ [_])%list) by reflexivity.
    rewrite <- app_assoc. reflexivity.
  - intros Hb. simpl. rewrite Hb. cbn -[log_of chat log_write].
    unfold send_to_blue_agent.
    rewrite (log_write_log_of log es) by exact Hlog.
    rewrite (log_write_log_of (Some _) (es ++ [_])%list) by reflexivity.
    rewrite <- app_assoc. reflexivity.
  - intros Hr Hb. apply String.eqb_neq in Hr, Hb. rewrite Hr, Hb. reflexivity.
Qed.

(** X12: a response containing a newline occupies several log lines: the
    part after the newline becomes a line of its own, without timestamp or
    tag. *)
Theorem red_response_split (endpoint : json -> chat_outcome) (ts1 ts2 agent message a b : string)
    (log : option string) (es : list string) :
  Forall (fun e => line_safe e = true) es -> default "" log = log_of es ->
  line_safe ts1 = true -> line_safe ts2 = true -> line_safe message = true ->
  line_safe a = true -> line_safe b = true ->
  py_lower agent = "red" ->
  chat endpoint RED_MODEL message (Some RED_SYSTEM) = a +:+ newline +:+ b ->
  exists log', cmd_chat endpoint ts1 ts2 agent message log =
                 (AgentResponse (a +:+ newline +:+ b), Some log') /\
               splitlines log' =
                 (es ++ [log_entry ts1 "RED" message; log_entry ts2 "RED_RESPONSE" a; b])%list.
Proof.
  intros Hes Hlog H1 H2 Hm Ha Hb Hr Hc. unfold cmd_chat. rewrite Hr. cbn -[log_of chat log_write].
  unfold send_to_red_agent. rewrite Hc.
  rewrite (log_write_log_of log es) by exact Hlog.
  rewrite (log_write_log_of (Some _) (es ++ [_])%list) by reflexivity.
  eexists. split; [reflexivity|].
  rewrite <- app_assoc. cbn [app].
  replace (log_of (es ++ [log_entry ts1 "RED" message; log_entry ts2 "RED_RESPONSE" (a +:+ newline +:+ b)])%list)
    with (log_of (es ++ [log_entry ts1 "RED" message; log_entry ts2 "RED_RESPONSE" a; b])%list).
  - apply splitlines_log_of. apply Forall_app. split; [exact Hes|].
    repeat constructor.
    + rewrite line_safe_log_entry, H1, Hm. reflexivity.
    + rewrite line_safe_log_entry, H2, Ha. reflexivity.
    + exact Hb.
  - rewrite !log_of_app_l. f_equal. cbn [log_of]. unfold log_entry.
    rewrite !string_app_assoc. reflexivity.
Qed.

(** X13: an unreachable tags endpoint, or one model entry without a [name],
    makes [list_models] return [[]] and both agents report down. *)
Theorem agent_status_unavailable (body ms m : json) (items : list json) :
  json_item body "models" = Some ms -> py_seq ms = Some items ->
  In m items -> json_item m "name" = None ->
  get_agent_status (list_models (TagsBody body)) = (false, false, []) /\
  (forall err, get_agent_status (list_models (TagsFailed err)) = (false, false, [])).
Proof.
  intros Hb Hs Hin Hm. split; [|reflexivity].
  unfold list_models. rewrite Hb, Hs, (model_names_none items m Hin Hm). reflexivity.
Qed.

(** X14: an agent is reported up exactly when the model list contains its
    model name as an equal string. *)
Theorem agent_status_exact_name (o : tags_outcome) :
  let '(red, blue, models) := get_agent_status (list_models o) in
  (red = true <-> In (JStr RED_MODEL) models) /\ (blue = true <-> In (JStr BLUE_MODEL) models).
Proof.
  assert (Hc : forall models x, py_contains_str models x = true <-> In (JStr x) models).
  { intros models x. unfold py_contains_str. rewrite existsb_exists. split.
    - intros ([| | |s| |] & Hin & Hs); try discriminate.
      apply String.eqb_eq in Hs. subst. exact Hin.
    - intros Hin. exists (JStr x). split; [exact Hin|]. apply String.eqb_refl. }
  unfold get_agent_status. split; apply Hc.
Qed.

(** X15: a successful [cmd_list] lists every lab directory with a
    [lab.json], each once, in sorted order, marked done exactly when
    completed. *)
Theorem cmd_list_listing (cat cat' : catalog) (s : session) (out : list_output) :
  cmd_list true cat s = inr (out, cat') ->
  cat' = cat /\
  exists l, out = LabList l /\ map le_lab_id l = lab_dirs cat /\
    Sorted String.le (map le_lab_id l) /\ NoDup (map le_lab_id l) /\
    (forall id, In id (map le_lab_id l) <-> is_Some (lab_files cat !! id)) /\
    Forall (fun le => le_done le = true <-> In (le_lab_id le) (completed_labs s)) l.
Proof.
  unfold cmd_list. destruct (list_labs s cat (lab_dirs cat)) as [e|l] eqn:E; [discriminate|].
  intros H. injection H as <- <-. split; [reflexivity|].
  destruct (list_labs_ids s cat (lab_dirs cat) l) as [Hm Hf];
    [intros id; apply lab_dirs_in|exact E|].
  exists l. split; [reflexivity|]. rewrite Hm. split; [reflexivity|].
  split; [apply Sorted_merge_sort; apply _|]. split; [apply lab_dirs_nodup|].
  split; [apply lab_dirs_in|exact Hf].
Qed.

(** X16: one [lab.json] that does not parse makes the whole listing raise. *)
Theorem cmd_list_malformed (cat : catalog) (s : session) (id : string) (e : decode_error) :
  lab_files cat !! id = Some (Unparseable e) -> exists e', cmd_list true cat s = inl e'.
Proof.
  intros He. unfold cmd_list.
  destruct (list_labs_fails s cat (lab_dirs cat) id (JSONDecodeError e)) as [e' ->].
  - apply lab_dirs_in. rewrite He. eauto.
  - unfold lab_load. rewrite He. reflexivity.
  - eauto.
Qed.

(** X17: after [cmd_list] created the example lab, [n >= 1] start processes
    for a new student followed by a hint process show hint [min n 3]. *)
Theorem example_lab_hints (cat cat' : catalog) (s : session) (out : list_output)
    (sid now : string) (st : store) (n : nat) :
  cmd_list false cat s = inr (out, cat') -> st !! sid = None -> (1 <= n)%nat ->
  exists st', run_starts n sid cat' "lab-01-recon" now st = inr (tt, st') /\
    student_hint sid cat' now st' =
      inr (ShowHint (Z.of_nat (Nat.min n 3)) (nth (Nat.min n 3 - 1) example_hints JNull), st').
Proof.
  intros Hl Hnone Hn. unfold cmd_list in Hl. injection Hl as _ <-.
  destruct (run_starts_state sid (create_example_labs cat) "lab-01-recon" now st example_lab n)
    as (st' & Hr & Hload); [exact Hnone|apply example_lab_load|reflexivity|].
  exists st'. split; [exact Hr|].
  destruct (iter_start_fields sid "lab-01-recon" now n Hn) as [Hcur Hatt].
  set (sn := Nat.iter n (start_lab_data "lab-01-recon" now) (zero_session sid now)) in *.
  unfold student_hint. unfold bindM at 1. rewrite Hload.
  destruct (py_seq_index_in_range example_hints (Z.of_nat (Nat.min n 3 - 1)) "list") as (x & Hx & Hi);
    [simpl; lia|].
  assert (Hh : cmd_hint (create_example_labs cat) sn =
               inr (ShowHint (Z.of_nat (Nat.min n 3)) x)).
  { unfold cmd_hint. rewrite Hcur. cbn [String.eqb]. rewrite example_lab_load.
    cbn [hints example_lab py_truthy negb lab_id]. simpl (negb _).
    rewrite Hatt. cbn [default py_len id]. change (Z.of_nat (length example_hints)) with 3.
    replace (Z.min (Z.of_nat n - 1) (3 - 1)) with (Z.of_nat (Nat.min n 3 - 1)) by lia.
    cbn [py_index]. rewrite Hi. f_equal. f_equal. lia. }
  unfold liftM. rewrite Hh. unfold retM. f_equal. f_equal. f_equal. f_equal.
  rewrite Nat2Z.id in Hx. symmetry. apply nth_error_nth. exact Hx.
Qed.

(** X18: the example lab has no [verify.py]: [cmd_verify] on it never
    completes it and writes nothing. *)
Theorem example_lab_never_completes (cat : catalog) (sid now : string) (o : proc_outcome)
    (s : session) (st : store) :
  "lab-01-recon" ∉ verify_files cat -> current_lab s = Some "lab-01-recon" ->
  cmd_verify sid (create_example_labs cat) now o s st = inr (s, st).
Proof.
  intros Hv Hcur. unfold cmd_verify. rewrite Hcur. cbn [String.eqb].
  cbv [bindM liftM retM raiseM]. rewrite example_lab_load.
  rewrite verify_no_script_eq by exact Hv. reflexivity.
Qed.

(** X19: every [student] invocation loads [student-01] first, so a corrupt
    record makes even the bare help fail; the [instructor] dispatch reads
    no record before its command runs: it picks the command from the
    arguments and leaves the store as it is. *)
Theorem main_student_session (argv0 now : string) (rest : list string) (st : store)
    (e : decode_error) :
  st !! "student-01" = Some (Corrupt e) ->
  main_dispatch (argv0 :: "student" :: rest) now st = inl (JSONDecodeError e) /\
  main_dispatch (argv0 :: "instructor" :: rest) now st =
    inr (match rest with
         | [] => MInstructorHelp
         | command :: args => MInstructor (instructor_command command args)
         end, st).
Proof.
  intros He. split.
  - unfold main_dispatch. rewrite String.eqb_refl. unfold load_or_create, bindM, getM.
    rewrite He. reflexivity.
  - unfold main_dispatch.
    replace (String.eqb "instructor" "student") with false by reflexivity.
    rewrite String.eqb_refl. reflexivity.
Qed.

(* ------------------------------------------------------------------ *)
(** ** Witnesses of the further properties *)

Lemma monitor_shows_last_entries_witness :
  Forall (fun e => line_safe e = true) es12 /\
  cmd_monitor "s1" "t" (Some (log_of es12)) ∅ =
    inr ((get_progress (zero_session "s1" "t"), Some (skipn 2 es12)), ∅) /\
  (∅ : store) = ∅ /\ Some (skipn 2 es12) = Some (py_tail 10 es12) /\
  length (py_tail 10 es12) = Nat.min 10 (length es12).
Proof.
  assert (H1 : Forall (fun e => line_safe e = true) es12) by (repeat constructor).
  assert (H2 : cmd_monitor "s1" "t" (Some (log_of es12)) ∅ =
               inr ((get_progress (zero_session "s1" "t"), Some (skipn 2 es12)), ∅))
    by (vm_compute; reflexivity).
  split; [exact H1|]. split; [exact H2|].
  exact (monitor_shows_last_entries "s1" "t" es12 ∅ _ ∅ H1 H2).
Defined.

Lemma cmd_chat_log_witness :
  default "" (Some (log_of es_w)) = log_of es_w /\
  cmd_chat endpoint_w "t1" "t2" "Red" "scan" (Some (log_of es_w)) =
    (AgentResponse "22/tcp open ssh",
     Some (log_of (es_w ++ [log_entry "t1" "RED" "scan";
                            log_entry "t2" "RED_RESPONSE" "22/tcp open ssh"])%list)).
Proof.
  assert (H : default "" (Some (log_of es_w)) = log_of es_w) by reflexivity.
  split; [exact H|].
  exact (proj1 (cmd_chat_log endpoint_w "t1" "t2" "Red" "scan" (Some (log_of es_w)) es_w H)
           eq_refl).
Defined.

Lemma red_response_split_witness :
  exists log', cmd_chat endpoint_lines "t1" "t2" "red" "scan" None =
                 (AgentResponse ("22/tcp open" +:+ newline +:+ "80/tcp open"), Some log') /\
               splitlines log' =
                 ([] ++ [log_entry "t1" "RED" "scan"; log_entry "t2" "RED_RESPONSE" "22/tcp open";
                         "80/tcp open"])%list.
Proof.
  exact (red_response_split endpoint_lines "t1" "t2" "red" "scan" "22/tcp open" "80/tcp open"
           None [] (List.Forall_nil _) eq_refl eq_refl eq_refl eq_refl eq_refl eq_refl eq_refl eq_refl).
Defined.

Lemma reset_confirmed_witness :
  py_lower "YES" = "yes" /\
  cmd_reset "s1" "t" "YES" st_w = inr (ResetDone, delete "s1" st_w) /\
  (forall now', load_or_create "s1" now' (delete "s1" st_w) =
                inr (zero_session "s1" now', delete "s1" st_w)).
Proof.
  assert (Hc : forall e, st_w !! "s1" <> Some (Corrupt e)) by (intros e; vm_compute; discriminate).
  split; [reflexivity|].
  exact (reset_confirmed "s1" "t" "YES" st_w eq_refl Hc).
Defined.

Lemma reset_corrupt_kept_witness :
  st_bad !! "s1" = Some (Corrupt de0) /\
  load_or_create "s1" "t" st_bad = inl (JSONDecodeError de0) /\
  cmd_reset "s1" "t" "Yes" st_bad = inl (JSONDecodeError de0) /\
  (forall st', cmd_reset "s1" "t" "Yes" st_bad <> inr (ResetDone, st')).
Proof.
  assert (H : st_bad !! "s1" = Some (Corrupt de0)) by reflexivity.
  split; [exact H|]. exact (reset_corrupt_kept "s1" "t" "Yes" st_bad de0 eq_refl H).
Defined.

Lemma grade_reachable_completed_witness :
  ctl_reachable "s1" "t" s_done /\ In "lab-01" (completed_labs s_done) /\
  exists n, grade_lines s_done !! "lab-01" = Some (true, n) /\ 1 <= n.
Proof.
  assert (H : ctl_reachable "s1" "t" s_done).
  { eapply rtc_l; [|eapply rtc_l; [|apply rtc_refl]].
    - apply (step_start "s1" cat1 "lab-01" "t" (zero_session "s1" "t") s_active ∅
             (<[ "s1" := Saved s_active ]> ∅)).
      vm_compute. reflexivity.
    - apply (step_verify "s1" cat1 "t" verify_ok_w s_active s_done ∅
             (<[ "s1" := Saved s_done ]> ∅)).
      vm_compute. reflexivity. }
  assert (Hin : In "lab-01" (completed_labs s_done)) by (left; reflexivity).
  split; [exact H|]. split; [exact Hin|].
  exact (grade_reachable_completed "s1" "t" s_done "lab-01" H Hin).
Defined.

Lemma stats_corrupt_fails_witness :
  st_bad !! "s1" = Some (Corrupt de0) /\ exists e', cmd_stats st_bad = inl e'.
Proof.
  assert (H : st_bad !! "s1" = Some (Corrupt de0)) by reflexivity.
  split; [exact H|]. exact (stats_corrupt_fails st_bad "s1" de0 H).
Defined.

Lemma cmd_list_listing_witness :
  cmd_list true cat3 s_done = inr (LabList
    [{| le_done := true; le_lab_id := "lab-01"; le_title := JStr "Basic Network Reconnaissance";
        le_difficulty := JStr "beginner"; le_objectives := 3 |};
     {| le_done := false; le_lab_id := "lab-02"; le_title := JStr "Log Analysis";
        le_difficulty := JStr "intermediate"; le_objectives := 2 |};
     {| le_done := false; le_lab_id := "lab-03"; le_title := JStr "Incident Response";
        le_difficulty := JStr "advanced"; le_objectives := 2 |}], cat3) /\
  (cat3 = cat3 /\
   exists l, LabList
    [{| le_done := true; le_lab_id := "lab-01"; le_title := JStr "Basic Network Reconnaissance";
        le_difficulty := JStr "beginner"; le_objectives := 3 |};
     {| le_done := false; le_lab_id := "lab-02"; le_title := JStr "Log Analysis";
        le_difficulty := JStr "intermediate"; le_objectives := 2 |};
     {| le_done := false; le_lab_id := "lab-03"; le_title := JStr "Incident Response";
        le_difficulty := JStr "advanced"; le_objectives := 2 |}] = LabList l /\
     map le_lab_id l = lab_dirs cat3 /\
     Sorted String.le (map le_lab_id l) /\ NoDup (map le_lab_id l) /\
     (forall id, In id (map le_lab_id l) <-> is_Some (lab_files cat3 !! id)) /\
     Forall (fun le => le_done le = true <-> In (le_lab_id le) (completed_labs s_done)) l).
Proof.
  assert (H : cmd_list true cat3 s_done = inr (LabList
    [{| le_done := true; le_lab_id := "lab-01"; le_title := JStr "Basic Network Reconnaissance";
        le_difficulty := JStr "beginner"; le_objectives := 3 |};
     {| le_done := false; le_lab_id := "lab-02"; le_title := JStr "Log Analysis";
        le_difficulty := JStr "intermediate"; le_objectives := 2 |};
     {| le_done := false; le_lab_id := "lab-03"; le_title := JStr "Incident Response";
        le_difficulty := JStr "advanced"; le_objectives := 2 |}], cat3))
    by (vm_compute; reflexivity).
  split; [exact H|]. exact (cmd_list_listing cat3 cat3 s_done _ H).
Defined.

Lemma cmd_list_malformed_witness :
  lab_files cat_bad !! "lab-02" = Some (Unparseable de0) /\
  exists e', cmd_list true cat_bad s_active = inl e'.
Proof.
  assert (H : lab_files cat_bad !! "lab-02" = Some (Unparseable de0)) by reflexivity.
  split; [exact H|]. exact (cmd_list_malformed cat_bad s_active "lab-02" de0 H).
Defined.

Lemma example_lab_hints_witness :
  cmd_list false cat0 s_active =
    inr (CreatedExampleLab "/labs/lab-01-recon", create_example_labs cat0) /\
  exists st', run_starts 4 "s1" (create_example_labs cat0) "lab-01-recon" "t" ∅ = inr (tt, st') /\
    student_hint "s1" (create_example_labs cat0) "t" st' =
      inr (ShowHint (Z.of_nat (Nat.min 4 3)) (nth (Nat.min 4 3 - 1) example_hints JNull), st').
Proof.
  assert (H : cmd_list false cat0 s_active =
              inr (CreatedExampleLab "/labs/lab-01-recon", create_example_labs cat0))
    by reflexivity.
  split; [exact H|].
  exact (example_lab_hints cat0 (create_example_labs cat0) s_active _ "s1" "t" ∅ 4 H eq_refl
           ltac:(lia)).
Defined.

Lemma example_lab_never_completes_witness :
  ("lab-01-recon" ∉ verify_files cat0) /\
  current_lab (start_lab_data "lab-01-recon" "t" (zero_session "s1" "t")) = Some "lab-01-recon" /\
  cmd_verify "s1" (create_example_labs cat0) "t" verify_ok_w
    (start_lab_data "lab-01-recon" "t" (zero_session "s1" "t")) ∅ =
  inr (start_lab_data "lab-01-recon" "t" (zero_session "s1" "t"), ∅).
Proof.
  assert (H : "lab-01-recon" ∉ verify_files cat0) by (simpl; set_solver).
  split; [exact H|]. split; [reflexivity|].
  exact (example_lab_never_completes cat0 "s1" "t" verify_ok_w
           (start_lab_data "lab-01-recon" "t" (zero_session "s1" "t")) ∅ H eq_refl).
Defined.

Lemma main_student_session_witness :
  st_bad01 !! "student-01" = Some (Corrupt de0) /\
  main_dispatch ["lab-ctl"; "student"] "t" st_bad01 = inl (JSONDecodeError de0) /\
  main_dispatch ["lab-ctl"; "instructor"; "reset"; "s1"] "t" st_bad01 =
    inr (MInstructor (instructor_command "reset" ["s1"]), st_bad01).
Proof.
  assert (H : st_bad01 !! "student-01" = Some (Corrupt de0)) by reflexivity.
  split; [exact H|]. split.
  - exact (proj1 (main_student_session "lab-ctl" "t" [] st_bad01 de0 H)).
  - exact (proj2 (main_student_session "lab-ctl" "t" ["reset"; "s1"] st_bad01 de0 H)).
Defined.

Lemma agent_status_unavailable_witness :
  json_item tags_w "models" =
    Some (JArr [JObj [("name", JStr RED_MODEL)]; JObj [("model", JStr BLUE_MODEL)]]) /\
  get_agent_status (list_models (TagsBody tags_w)) = (false, false, []) /\
  (forall err, get_agent_status (list_models (TagsFailed err)) = (false, false, [])).
Proof.
  assert (H : json_item tags_w "models" =
              Some (JArr [JObj [("name", JStr RED_MODEL)]; JObj [("model", JStr BLUE_MODEL)]]))
    by reflexivity.
  split; [exact H|].
  exact (agent_status_unavailable tags_w _ (JObj [("model", JStr BLUE_MODEL)]) _ H eq_refl
           (or_intror (or_introl eq_refl)) eq_refl).
Defined.

Lemma instructor_reads_only_witness :
  st_two !! "s9" = None /\
  cmd_monitor "s9" "t" (Some (log_of es_w)) st_two =
    inr ((get_progress (zero_session "s9" "t"), Some (py_tail 10 (splitlines (log_of es_w)))),
         st_two) /\
  cmd_grade "s9" "t" st_two = inr ((get_progress (zero_session "s9" "t"), ∅), st_two).
Proof.
  assert (H : st_two !! "s9" = None) by reflexivity.
  split; [exact H|].
  exact (proj2 (proj2 (instructor_reads_only "s9" "t" (Some (log_of es_w)) st_two)) H).
Defined.
